(** * Hotel reservation system: record stores, inventory ledger, reservation lifecycle

    A shallow embedding of [hotel_system/hotel.py], [hotel_system/customer.py]
    and [hotel_system/reservation.py].

    - Values decoded from a JSON file are Python values ([pyval]).
    - A class method is a function on the three backing files ([disk]); it
      returns what the method returns, or the exception that leaves it, together
      with the files as the method leaves them.
    - [print] is not modelled: a diagnostic has no effect on the files or on
      the value returned.
    - Identifiers and dates are strings, read as ASCII text, as the command
      line passes them.
    - A dict is a finite map: the order of its keys is not modelled. *)

From Stdlib Require Import ZArith String Ascii List Bool Lia.
From Stdlib Require Import Floats.SpecFloat.
From stdpp Require Import base option list gmap strings fin_maps.

Import ListNotations.
Open Scope Z_scope.
Open Scope string_scope.

(** ** Python values and exceptions *)

(** What [json.load] builds: [None], [bool], [int], [float], [str], [list] and
    [dict] with string keys.  The keys of a decoded object are distinct; a
    lookup takes the first binding. *)
#[local] Set Warnings "-register-all".
Inductive pyval : Type :=
| PNone
| PBool (b : bool)
| PInt (n : Z)
| PFloat (f : spec_float)
| PStr (s : string)
| PList (l : list pyval)
| PDict (d : list (string * pyval)).

(** The exceptions the three modules can meet.  [from_dict] handles the first
    three; nothing handles the other two. *)
Inductive exn : Type :=
| KeyError | ValueError | TypeError | AttributeError | OverflowError.

Inductive outcome (A : Type) : Type :=
| Ok (a : A)
| Raise (e : exn).
Arguments Ok {A} a.
Arguments Raise {A} e.

Definition obind {A B} (x : outcome A) (k : A -> outcome B) : outcome B :=
  match x with
  | Ok a => k a
  | Raise e => Raise e
  end.

Declare Scope py_scope.
Delimit Scope py_scope with py.
Notation "x <- c1 ;; c2" := (obind c1 (fun x => c2))
  (at level 62, c1 at next level, right associativity) : py_scope.

(** The builtins whose result depends on how Python reads or writes text:
    [str(x)] of a value that is not already a [str], and [int(s)], [float(s)]
    of a string ([None]: the string is not a literal, a [ValueError]). *)
Record PyRuntime : Type := {
  str_render : pyval -> string;
  int_parse : string -> option Z;
  float_parse : string -> option spec_float;
}.

Module Py.

(** binary64 *)
Definition prec : Z := 53.
Definition emax : Z := 1024.

(** [float(n)] for an [int]: round to nearest even; a value beyond the
    largest double is an [OverflowError]. *)
Definition float_of_Z (n : Z) : outcome spec_float :=
  match binary_normalize prec emax n 0 false with
  | S754_infinity _ => Raise OverflowError
  | f => Ok f
  end.

(** [int(f)] for a [float]: truncation toward zero; [nan] is a [ValueError],
    an infinity an [OverflowError]. *)
Definition Z_of_float (f : spec_float) : outcome Z :=
  match f with
  | S754_zero _ => Ok 0
  | S754_nan => Raise ValueError
  | S754_infinity _ => Raise OverflowError
  | S754_finite s m e =>
      let a := Z.shiftl (Z.pos m) e in Ok (if s then - a else a)
  end.

Section Builtins.
Variable rt : PyRuntime.

Definition str (v : pyval) : string :=
  match v with
  | PStr s => s
  | _ => str_render rt v
  end.

Definition float (v : pyval) : outcome spec_float :=
  match v with
  | PBool b => float_of_Z (if b then 1 else 0)
  | PInt n => float_of_Z n
  | PFloat f => Ok f
  | PStr s =>
      match float_parse rt s with
      | Some f => Ok f
      | None => Raise ValueError
      end
  | PNone | PList _ | PDict _ => Raise TypeError
  end.

Definition int (v : pyval) : outcome Z :=
  match v with
  | PBool b => Ok (if b then 1 else 0)
  | PInt n => Ok n
  | PFloat f => Z_of_float f
  | PStr s =>
      match int_parse rt s with
      | Some n => Ok n
      | None => Raise ValueError
      end
  | PNone | PList _ | PDict _ => Raise TypeError
  end.
End Builtins.

(** [list(v)]: the characters of a string, a copy of a list, the keys of a
    dict; anything else is not iterable. *)
Definition list_ (v : pyval) : outcome (list pyval) :=
  match v with
  | PStr s => Ok (map (fun c => PStr (String c EmptyString)) (list_ascii_of_string s))
  | PList l => Ok l
  | PDict d => Ok (map (fun kv => PStr (fst kv)) d)
  | PNone | PBool _ | PInt _ | PFloat _ => Raise TypeError
  end.

Fixpoint assoc (k : string) (d : list (string * pyval)) : option pyval :=
  match d with
  | [] => None
  | (k', v) :: d' => if String.eqb k k' then Some v else assoc k d'
  end.

(** [data[k]] with a string [k]: only a dict can be indexed by a string. *)
Definition getitem (data : pyval) (k : string) : outcome pyval :=
  match data with
  | PDict d =>
      match assoc k d with
      | Some v => Ok v
      | None => Raise KeyError
      end
  | _ => Raise TypeError
  end.

(** [data.get(k, default)]: a method of dicts only. *)
Definition get (data : pyval) (k : string) (default : pyval) : outcome pyval :=
  match data with
  | PDict d => Ok (match assoc k d with Some v => v | None => default end)
  | _ => Raise AttributeError
  end.

End Py.

(** ** Backing files *)

(** One JSON file.  [text] is [None] when the path does not exist, [Some None]
    when the file holds text that [json.load] rejects (a [JSONDecodeError]),
    and [Some (Some j)] when it decodes to [j].  [unreadable] and [read_only]
    say that [open] raises an [OSError] for reading, respectively writing.
    The data directory can always be created ([os.makedirs]). *)
Record file : Type := mkFile {
  text : option (option pyval);
  unreadable : bool;
  read_only : bool;
}.

(** [json.dump] of a mapping of serialized records, with [open(..., 'w')]
    around it: a refused write leaves the file as it was. *)
Definition dump (records : gmap string pyval) (f : file) : file :=
  if read_only f then f
  else {| text := Some (Some (PDict (map_to_list records)));
          unreadable := unreadable f;
          read_only := read_only f |}.

(** The load and save code that the three classes repeat, over the class's
    [from_dict] and [to_dict]. *)
Section RecordStore.
Context {A : Type}.
Variable from_dict : pyval -> outcome (option A).
Variable to_dict : A -> pyval.

(** The loop [for key, val in raw.items()] of [load_all]. *)
Fixpoint load_records (items : list (string * pyval)) (result : gmap string A)
  : outcome (gmap string A) :=
  match items with
  | [] => Ok result
  | (key, val) :: rest =>
      (obj <- from_dict val ;;
       load_records rest
         (match obj with
          | Some o => <[key := o]> result
          | None => result
          end))%py
  end.

Definition load_file (f : file) : outcome (gmap string A) :=
  match text f with
  | None => Ok ∅
  | Some t =>
      if unreadable f then Ok ∅
      else match t with
           | None => Ok ∅
           | Some (PDict items) => load_records items ∅
           | Some _ => Raise AttributeError
           end
  end.

Definition save_file (objs : gmap string A) (f : file) : file :=
  dump (to_dict <$> objs) f.
End RecordStore.

(** [except (KeyError, ValueError, TypeError)] of the three [from_dict]. *)
Definition handled (e : exn) : bool :=
  match e with
  | KeyError | ValueError | TypeError => true
  | AttributeError | OverflowError => false
  end.

Definition try_from_dict {A} (body : outcome A) : outcome (option A) :=
  match body with
  | Ok a => Ok (Some a)
  | Raise e => if handled e then Ok None else Raise e
  end.

(** ** The three files and the methods that work on them *)

Record disk : Type := mkDisk {
  hotels_json : file;
  customers_json : file;
  reservations_json : file;
}.

Definition M (A : Type) : Type := disk -> outcome A * disk.

Definition ret {A} (a : A) : M A := fun d => (Ok a, d).
Definition raise {A} (e : exn) : M A := fun d => (Raise e, d).
Definition lift {A} (x : outcome A) : M A := fun d => (x, d).
Definition bind {A B} (m : M A) (k : A -> M B) : M B :=
  fun d =>
    match m d with
    | (Ok a, d') => k a d'
    | (Raise e, d') => (Raise e, d')
    end.

Declare Scope io_scope.
Delimit Scope io_scope with io.
Notation "x <~ c1 ;; c2" := (bind c1 (fun x => c2))
  (at level 62, c1 at next level, right associativity) : io_scope.
Notation "c1 ;;; c2" := (bind c1 (fun _ => c2))
  (at level 62, right associativity) : io_scope.

Definition set_hotels (f : file -> file) (d : disk) : disk :=
  {| hotels_json := f (hotels_json d);
     customers_json := customers_json d;
     reservations_json := reservations_json d |}.

Definition set_customers (f : file -> file) (d : disk) : disk :=
  {| hotels_json := hotels_json d;
     customers_json := f (customers_json d);
     reservations_json := reservations_json d |}.

Definition set_reservations (f : file -> file) (d : disk) : disk :=
  {| hotels_json := hotels_json d;
     customers_json := customers_json d;
     reservations_json := f (reservations_json d) |}.

(** [x == v] for a string [x], as [in] and [list.remove] compare: a string
    equals only the same string. *)
Definition eq_str (x : string) (v : pyval) : bool :=
  match v with
  | PStr s => String.eqb x s
  | _ => false
  end.

(** [l.remove(x)]: the first element equal to [x] goes. *)
Fixpoint remove_first (x : string) (l : list pyval) : list pyval :=
  match l with
  | [] => []
  | v :: l' => if eq_str x v then l' else v :: remove_first x l'
  end.

(** [setattr] on the attributes of an object, and the key's binding in a
    dict: the first binding of [key] is replaced, a new key goes last. *)
Fixpoint setattr (o : list (string * pyval)) (key : string) (val : pyval)
  : list (string * pyval) :=
  match o with
  | [] => [(key, val)]
  | (k, v) :: o' =>
      if String.eqb key k then (k, val) :: o' else (k, v) :: setattr o' key val
  end.

(** ** hotel.py *)

Module Hotel.

Record t : Type := mk {
  hotel_id : string;
  name : string;
  location : string;
  rating : spec_float;
  total_rooms : Z;
  available_rooms : Z;
  reservations : list pyval;
}.

Definition with_ledger (h : t) (available : Z) (ids : list pyval) : t :=
  {| hotel_id := hotel_id h;
     name := name h;
     location := location h;
     rating := rating h;
     total_rooms := total_rooms h;
     available_rooms := available;
     reservations := ids |}.

(** The attributes of a hotel object, in the order [to_dict] reads them. *)
Definition vars (h : t) : list (string * pyval) :=
  [ ("hotel_id", PStr (hotel_id h));
    ("name", PStr (name h));
    ("location", PStr (location h));
    ("rating", PFloat (rating h));
    ("total_rooms", PInt (total_rooms h));
    ("available_rooms", PInt (available_rooms h));
    ("reservations", PList (reservations h)) ].

Definition to_dict (h : t) : pyval := PDict (vars h).

(** [allowed = {'name', 'location', 'rating', 'total_rooms'}] of [modify]. *)
Definition allowed (key : string) : bool :=
  String.eqb key "name" || String.eqb key "location"
  || String.eqb key "rating" || String.eqb key "total_rooms".

Section Methods.
Variable rt : PyRuntime.

(** [__init__] *)
Definition init (hotel_id name location rating total_rooms : pyval) : outcome t :=
  (r <- Py.float rt rating ;;
   n <- Py.int rt total_rooms ;;
   Ok {| hotel_id := Py.str rt hotel_id;
         name := Py.str rt name;
         location := Py.str rt location;
         rating := r;
         total_rooms := n;
         available_rooms := n;
         reservations := [] |})%py.

Definition from_dict (data : pyval) : outcome (option t) :=
  try_from_dict
    (a_id <- Py.getitem data "hotel_id" ;;
     a_name <- Py.getitem data "name" ;;
     a_location <- Py.getitem data "location" ;;
     a_rating <- Py.getitem data "rating" ;;
     a_total <- Py.getitem data "total_rooms" ;;
     hotel <- init a_id a_name a_location a_rating a_total ;;
     v_available <- Py.get data "available_rooms" (PInt (total_rooms hotel)) ;;
     available <- Py.int rt v_available ;;
     v_reservations <- Py.get data "reservations" (PList []) ;;
     ids <- Py.list_ v_reservations ;;
     Ok (with_ledger hotel available ids))%py.

Definition load_all : M (gmap string t) :=
  fun d => (load_file from_dict (hotels_json d), d).

Definition save_all (hotels : gmap string t) : M unit :=
  fun d => (Ok tt, set_hotels (save_file to_dict hotels) d).

Definition create (hotel_id : string) (name location rating total_rooms : pyval)
  : M (option t) :=
  (hotels <~ load_all ;;
   match hotels !! hotel_id with
   | Some _ => ret None
   | None =>
       match init (PStr hotel_id) name location rating total_rooms with
       | Ok hotel =>
           save_all (<[hotel_id := hotel]> hotels) ;;;
           ret (Some hotel)
       | Raise ValueError | Raise TypeError => ret None
       | Raise e => raise e
       end
   end)%io.

Definition delete (hotel_id : string) : M bool :=
  (hotels <~ load_all ;;
   match hotels !! hotel_id with
   | None => ret false
   | Some _ =>
       save_all (base.delete hotel_id hotels) ;;;
       ret true
   end)%io.

Definition get (hotel_id : string) : M (option t) :=
  (hotels <~ load_all ;;
   ret (hotels !! hotel_id))%io.

(** [modify]: [setattr] stores the given value as it is, so the object that
    reaches [save_all] may hold any value in the four allowed attributes.
    The save is therefore written on the object's attributes, which
    [to_dict] copies key by key. *)
Definition modify (hotel_id : string) (kwargs : list (string * pyval)) : M bool :=
  (hotels <~ load_all ;;
   match hotels !! hotel_id with
   | None => ret false
   | Some hotel =>
       let obj :=
         fold_left
           (fun o kv => if allowed (fst kv) then setattr o (fst kv) (snd kv) else o)
           kwargs (vars hotel) in
       (fun d =>
          (Ok tt,
           set_hotels (dump (<[hotel_id := PDict obj]> (to_dict <$> hotels))) d)) ;;;
       ret true
   end)%io.

Definition reserve_room (hotel_id reservation_id : string) : M bool :=
  (hotels <~ load_all ;;
   match hotels !! hotel_id with
   | None => ret false
   | Some hotel =>
       if (available_rooms hotel <=? 0)%Z then ret false
       else
         let hotel' :=
           with_ledger hotel (available_rooms hotel - 1)
             (reservations hotel ++ [PStr reservation_id]) in
         save_all (<[hotel_id := hotel']> hotels) ;;;
         ret true
   end)%io.

Definition cancel_reservation (hotel_id reservation_id : string) : M bool :=
  (hotels <~ load_all ;;
   match hotels !! hotel_id with
   | None => ret false
   | Some hotel =>
       if negb (existsb (eq_str reservation_id) (reservations hotel)) then ret false
       else
         let hotel' :=
           with_ledger hotel
             (Z.min (available_rooms hotel + 1) (total_rooms hotel))
             (remove_first reservation_id (reservations hotel)) in
         save_all (<[hotel_id := hotel']> hotels) ;;;
         ret true
   end)%io.
End Methods.

End Hotel.

(** ** customer.py *)

Module Customer.

Record t : Type := mk {
  customer_id : string;
  name : string;
  email : string;
  phone : string;
}.

Definition to_dict (c : t) : pyval :=
  PDict [ ("customer_id", PStr (customer_id c));
          ("name", PStr (name c));
          ("email", PStr (email c));
          ("phone", PStr (phone c)) ].

(** The attributes of a customer object, in the order [to_dict] reads them. *)
Definition vars (c : t) : list (string * pyval) :=
  [ ("customer_id", PStr (customer_id c));
    ("name", PStr (name c));
    ("email", PStr (email c));
    ("phone", PStr (phone c)) ].

(** [allowed = {'name', 'email', 'phone'}] of [modify]. *)
Definition allowed (key : string) : bool :=
  String.eqb key "name" || String.eqb key "email" || String.eqb key "phone".

Section Methods.
Variable rt : PyRuntime.

Definition init (customer_id name email phone : pyval) : t :=
  {| customer_id := Py.str rt customer_id;
     name := Py.str rt name;
     email := Py.str rt email;
     phone := Py.str rt phone |}.

Definition from_dict (data : pyval) : outcome (option t) :=
  try_from_dict
    (a_id <- Py.getitem data "customer_id" ;;
     a_name <- Py.getitem data "name" ;;
     a_email <- Py.getitem data "email" ;;
     a_phone <- Py.getitem data "phone" ;;
     Ok (init a_id a_name a_email a_phone))%py.

Definition load_all : M (gmap string t) :=
  fun d => (load_file from_dict (customers_json d), d).

Definition save_all (customers : gmap string t) : M unit :=
  fun d => (Ok tt, set_customers (save_file to_dict customers) d).

Definition create (customer_id : string) (name email phone : pyval) : M (option t) :=
  (customers <~ load_all ;;
   match customers !! customer_id with
   | Some _ => ret None
   | None =>
       let customer := init (PStr customer_id) name email phone in
       save_all (<[customer_id := customer]> customers) ;;;
       ret (Some customer)
   end)%io.

Definition delete (customer_id : string) : M bool :=
  (customers <~ load_all ;;
   match customers !! customer_id with
   | None => ret false
   | Some _ =>
       save_all (base.delete customer_id customers) ;;;
       ret true
   end)%io.

Definition get (customer_id : string) : M (option t) :=
  (customers <~ load_all ;;
   ret (customers !! customer_id))%io.

(** [modify], written on the attributes of the object as [Hotel.modify] is:
    [setattr] stores the given value as it is. *)
Definition modify (customer_id : string) (kwargs : list (string * pyval)) : M bool :=
  (customers <~ load_all ;;
   match customers !! customer_id with
   | None => ret false
   | Some customer =>
       let obj :=
         fold_left
           (fun o kv => if allowed (fst kv) then setattr o (fst kv) (snd kv) else o)
           kwargs (vars customer) in
       (fun d =>
          (Ok tt,
           set_customers (dump (<[customer_id := PDict obj]> (to_dict <$> customers))) d)) ;;;
       ret true
   end)%io.
End Methods.

End Customer.

(** ** datetime.strptime(s, '%Y-%m-%d') *)

(** The date of a [datetime] built by [strptime] with this format; its time
    of day is always midnight. *)
Record datetime : Type := mkDate {
  year : Z;
  month : Z;
  day : Z;
}.

Module Strptime.

Definition digit (c : ascii) : option Z :=
  let n := Z.of_nat (nat_of_ascii c) in
  if (48 <=? n)%Z && (n <=? 57)%Z then Some (n - 48) else None.

Definition in_range (lo hi : Z) (c : ascii) : option Z :=
  match digit c with
  | Some n => if (lo <=? n)%Z && (n <=? hi)%Z then Some n else None
  | None => None
  end.

Definition dash (c : ascii) : bool := Ascii.eqb c "-"%char.

(** [%Y] is [\d\d\d\d]. *)
Definition year4 (a b c d : ascii) : option Z :=
  match digit a, digit b, digit c, digit d with
  | Some a, Some b, Some c, Some d => Some (1000 * a + 100 * b + 10 * c + d)
  | _, _, _, _ => None
  end.

(** [%m] is [1[0-2]|0[1-9]|[1-9]], followed here by the dash. *)
Definition month_then_dash (s : list ascii) : option (Z * list ascii) :=
  let two :=
    match s with
    | a :: b :: c :: rest =>
        if dash c then
          match in_range 1 1 a, in_range 0 2 b with
          | Some _, Some n => Some (10 + n, rest)
          | _, _ =>
              match in_range 0 0 a, in_range 1 9 b with
              | Some _, Some n => Some (n, rest)
              | _, _ => None
              end
          end
        else None
    | _ => None
    end in
  match two with
  | Some r => Some r
  | None =>
      match s with
      | a :: b :: rest =>
          if dash b then
            match in_range 1 9 a with
            | Some n => Some (n, rest)
            | None => None
            end
          else None
      | _ => None
      end
  end.

(** [%d] is [3[0-1]|[1-2]\d|0[1-9]|[1-9]| [1-9]]; it ends the format, so
    text left after it is an error. *)
Definition day_to_end (s : list ascii) : option Z :=
  match s with
  | [a] => in_range 1 9 a
  | [a; b] =>
      match in_range 3 3 a, in_range 0 1 b with
      | Some _, Some n => Some (30 + n)
      | _, _ =>
          match in_range 1 2 a, digit b with
          | Some m, Some n => Some (10 * m + n)
          | _, _ =>
              match in_range 0 0 a, in_range 1 9 b with
              | Some _, Some n => Some n
              | _, _ =>
                  if Ascii.eqb a " "%char then in_range 1 9 b else None
              end
          end
      end
  | _ => None
  end.

Definition is_leap (y : Z) : bool :=
  (y mod 4 =? 0)%Z && (negb (y mod 100 =? 0)%Z || (y mod 400 =? 0)%Z).

Definition days_in_month (y m : Z) : Z :=
  if (m =? 2)%Z then (if is_leap y then 29 else 28)
  else if (m =? 4)%Z || (m =? 6)%Z || (m =? 9)%Z || (m =? 11)%Z then 30
  else 31.

(** [None] is the [ValueError] of [strptime]: the text does not match the
    format, text remains after the match, or the fields are not a date of the
    calendar (years run from 1 to 9999).  Strings are read as ASCII. *)
Definition strptime (s : string) : option datetime :=
  match list_ascii_of_string s with
  | a :: b :: c :: d :: e :: rest =>
      match year4 a b c d, dash e, month_then_dash rest with
      | Some y, true, Some (m, rest') =>
          match day_to_end rest' with
          | Some dd =>
              if (1 <=? y)%Z && (dd <=? days_in_month y m)%Z
              then Some {| year := y; month := m; day := dd |}
              else None
          | None => None
          end
      | _, _, _ => None
      end
  | _ => None
  end.

(** [x <= y] on two such datetimes. *)
Definition le (x y : datetime) : bool :=
  (year x <? year y)%Z
  || ((year x =? year y)%Z
      && ((month x <? month y)%Z
          || ((month x =? month y)%Z && (day x <=? day y)%Z))).

End Strptime.

(** ** reservation.py *)

Module Reservation.

Record t : Type := mk {
  reservation_id : string;
  customer_id : string;
  hotel_id : string;
  check_in : string;
  check_out : string;
  status : pyval;
}.

Definition with_status (r : t) (s : pyval) : t :=
  {| reservation_id := reservation_id r;
     customer_id := customer_id r;
     hotel_id := hotel_id r;
     check_in := check_in r;
     check_out := check_out r;
     status := s |}.

Definition to_dict (r : t) : pyval :=
  PDict [ ("reservation_id", PStr (reservation_id r));
          ("customer_id", PStr (customer_id r));
          ("hotel_id", PStr (hotel_id r));
          ("check_in", PStr (check_in r));
          ("check_out", PStr (check_out r));
          ("status", status r) ].

(** Returns [(None, None)] on error. *)
Definition validate_dates (check_in check_out : string)
  : option datetime * option datetime :=
  match Strptime.strptime check_in, Strptime.strptime check_out with
  | Some date_in, Some date_out =>
      if Strptime.le date_out date_in then (None, None)
      else (Some date_in, Some date_out)
  | _, _ => (None, None)
  end.

Section Methods.
Variable rt : PyRuntime.

Definition init (reservation_id customer_id hotel_id check_in check_out : pyval) : t :=
  {| reservation_id := Py.str rt reservation_id;
     customer_id := Py.str rt customer_id;
     hotel_id := Py.str rt hotel_id;
     check_in := Py.str rt check_in;
     check_out := Py.str rt check_out;
     status := PStr "active" |}.

Definition from_dict (data : pyval) : outcome (option t) :=
  try_from_dict
    (a_id <- Py.getitem data "reservation_id" ;;
     a_customer <- Py.getitem data "customer_id" ;;
     a_hotel <- Py.getitem data "hotel_id" ;;
     a_in <- Py.getitem data "check_in" ;;
     a_out <- Py.getitem data "check_out" ;;
     s <- Py.get data "status" (PStr "active") ;;
     Ok (with_status (init a_id a_customer a_hotel a_in a_out) s))%py.

Definition load_all : M (gmap string t) :=
  fun d => (load_file from_dict (reservations_json d), d).

Definition save_all (reservations : gmap string t) : M unit :=
  fun d => (Ok tt, set_reservations (save_file to_dict reservations) d).

Definition create (reservation_id customer_id hotel_id check_in check_out : string)
  : M (option t) :=
  match fst (validate_dates check_in check_out) with
  | None => ret None
  | Some _ =>
      (reservations <~ load_all ;;
       match reservations !! reservation_id with
       | Some _ => ret None
       | None =>
           customer <~ Customer.get rt customer_id ;;
           match customer with
           | None => ret None
           | Some _ =>
               reserved <~ Hotel.reserve_room rt hotel_id reservation_id ;;
               if negb reserved then ret None
               else
                 let res :=
                   init (PStr reservation_id) (PStr customer_id) (PStr hotel_id)
                     (PStr check_in) (PStr check_out) in
                 save_all (<[reservation_id := res]> reservations) ;;;
                 ret (Some res)
           end
       end)%io
  end.

Definition cancel (reservation_id : string) : M bool :=
  (reservations <~ load_all ;;
   match reservations !! reservation_id with
   | None => ret false
   | Some res =>
       if eq_str "cancelled" (status res) then ret false
       else
         Hotel.cancel_reservation rt (hotel_id res) reservation_id ;;;
         save_all (<[reservation_id := with_status res (PStr "cancelled")]> reservations) ;;;
         ret true
   end)%io.

Definition get (reservation_id : string) : M (option t) :=
  (reservations <~ load_all ;;
   ret (reservations !! reservation_id))%io.
End Methods.

End Reservation.

(** * Vocabulary of the properties *)

(** The snapshots a method sees when it starts on [d]. *)
Definition hotels_of rt (d : disk) : outcome (gmap string Hotel.t) :=
  fst (Hotel.load_all rt d).
Definition customers_of rt (d : disk) : outcome (gmap string Customer.t) :=
  fst (Customer.load_all rt d).
Definition reservations_of rt (d : disk) : outcome (gmap string Reservation.t) :=
  fst (Reservation.load_all rt d).

(** A file that [open] accepts both ways. *)
Definition accessible (f : file) : Prop :=
  read_only f = false /\ unreadable f = false.

(** A closed runtime for the examples below.  None of them puts a string
    where a number is read or another value where a string is read, so its
    components are never consulted. *)
Definition example_runtime : PyRuntime :=
  {| str_render := fun _ => "";
     int_parse := fun _ => None;
     float_parse := fun _ => None |}.

Definition new_file : file :=
  {| text := None; unreadable := false; read_only := false |}.

Definition holding (j : pyval) : file :=
  {| text := Some (Some j); unreadable := false; read_only := false |}.

Definition fresh_disk : disk :=
  {| hotels_json := new_file; customers_json := new_file; reservations_json := new_file |}.

Definition grand : Hotel.t :=
  {| Hotel.hotel_id := "H1"; Hotel.name := "Grand"; Hotel.location := "NYC";
     Hotel.rating := S754_finite false 5066549580791808 (-50);
     Hotel.total_rooms := 2; Hotel.available_rooms := 1;
     Hotel.reservations := [PStr "R1"] |}.

Definition alice : Customer.t :=
  {| Customer.customer_id := "C1"; Customer.name := "Alice";
     Customer.email := "alice@example.com"; Customer.phone := "555-1234" |}.

Definition stay (status : string) : Reservation.t :=
  {| Reservation.reservation_id := "R1"; Reservation.customer_id := "C1";
     Reservation.hotel_id := "H1"; Reservation.check_in := "2025-01-10";
     Reservation.check_out := "2025-01-15"; Reservation.status := PStr status |}.

(** A hotels file in which the first record holds an infinite [total_rooms]
    (JSON [1e999] decodes to the float infinity) and the second is well formed. *)
Definition infinite_rooms : pyval :=
  PDict [ ("hotel_id", PStr "H0"); ("name", PStr "Vast"); ("location", PStr "LA");
          ("rating", PFloat (S754_finite false 5066549580791808 (-50)));
          ("total_rooms", PFloat (S754_infinity false)) ].

Definition overflowing_disk : disk :=
  {| hotels_json := holding (PDict [ ("H0", infinite_rooms); ("H1", Hotel.to_dict grand) ]);
     customers_json := new_file;
     reservations_json := new_file |}.

(** A stored hotel record with neither [available_rooms] nor [reservations]. *)
Definition bare_record : pyval :=
  PDict [ ("hotel_id", PStr "H1"); ("name", PStr "Grand"); ("location", PStr "NYC");
          ("rating", PInt 4); ("total_rooms", PInt 2) ].

(** A file whose text [json.load] rejects. *)
Definition unparsable_file : file :=
  {| text := Some None; unreadable := false; read_only := false |}.

(** The bounds of the ledger of one hotel, and of every hotel a load of [d]
    returns. *)
Definition within_bounds (hot : Hotel.t) : Prop :=
  0 <= Hotel.available_rooms hot <= Hotel.total_rooms hot.

Definition ledger_bounded rt (d : disk) : Prop :=
  forall hs k hot, hotels_of rt d = Ok hs -> hs !! k = Some hot -> within_bounds hot.

(** The hotel [reserve_room] saves, and the one [cancel_reservation] saves. *)
Definition reserved (hot : Hotel.t) (rid : string) : Hotel.t :=
  Hotel.with_ledger hot (Hotel.available_rooms hot - 1)
    (Hotel.reservations hot ++ [PStr rid]).

Definition released (hot : Hotel.t) (rid : string) : Hotel.t :=
  Hotel.with_ledger hot
    (Z.min (Hotel.available_rooms hot + 1) (Hotel.total_rooms hot))
    (remove_first rid (Hotel.reservations hot)).

Definition full_hotel : Hotel.t :=
  {| Hotel.hotel_id := "H1"; Hotel.name := "Grand"; Hotel.location := "NYC";
     Hotel.rating := S754_finite false 5066549580791808 (-50);
     Hotel.total_rooms := 1; Hotel.available_rooms := 0;
     Hotel.reservations := [PStr "R1"] |}.

Definition hotels_disk (hs : gmap string Hotel.t) : disk :=
  snd (Hotel.save_all hs fresh_disk).

(** The attributes of the object [modify] passes to [save_all]. *)
Definition modified (hot : Hotel.t) (kwargs : list (string * pyval))
  : list (string * pyval) :=
  fold_left
    (fun o kv => if Hotel.allowed (fst kv) then setattr o (fst kv) (snd kv) else o)
    kwargs (Hotel.vars hot).

(** The reservation [create] persists. *)
Definition booking (rid cid hid check_in check_out : string) : Reservation.t :=
  {| Reservation.reservation_id := rid; Reservation.customer_id := cid;
     Reservation.hotel_id := hid; Reservation.check_in := check_in;
     Reservation.check_out := check_out; Reservation.status := PStr "active" |}.

Definition cancelled (res : Reservation.t) : Reservation.t :=
  Reservation.with_status res (PStr "cancelled").

(** The calls of the three classes that write. *)
Inductive call : Type :=
| HotelCreate (hotel_id : string) (name location rating total_rooms : pyval)
| HotelDelete (hotel_id : string)
| HotelModify (hotel_id : string) (kwargs : list (string * pyval))
| HotelReserveRoom (hotel_id reservation_id : string)
| HotelCancelReservation (hotel_id reservation_id : string)
| CustomerCreate (customer_id : string) (name email phone : pyval)
| CustomerDelete (customer_id : string)
| ReservationCreate (reservation_id customer_id hotel_id check_in check_out : string)
| ReservationCancel (reservation_id : string).

(** The files after a call, whatever it returned or raised. *)
Definition after rt (c : call) (d : disk) : disk :=
  match c with
  | HotelCreate h n l r t => snd (Hotel.create rt h n l r t d)
  | HotelDelete h => snd (Hotel.delete rt h d)
  | HotelModify h kwargs => snd (Hotel.modify rt h kwargs d)
  | HotelReserveRoom h rid => snd (Hotel.reserve_room rt h rid d)
  | HotelCancelReservation h rid => snd (Hotel.cancel_reservation rt h rid d)
  | CustomerCreate c n e p => snd (Customer.create rt c n e p d)
  | CustomerDelete c => snd (Customer.delete rt c d)
  | ReservationCreate rid cid hid ci co => snd (Reservation.create rt rid cid hid ci co d)
  | ReservationCancel rid => snd (Reservation.cancel rt rid d)
  end.

(** [modify] called with the keyword [total_rooms]. *)
Definition sets_total_rooms (c : call) : bool :=
  match c with
  | HotelModify _ kwargs => existsb (fun kv => String.eqb (fst kv) "total_rooms") kwargs
  | _ => false
  end.

Definition with_total_rooms (hot : Hotel.t) (n : Z) : Hotel.t :=
  {| Hotel.hotel_id := Hotel.hotel_id hot;
     Hotel.name := Hotel.name hot;
     Hotel.location := Hotel.location hot;
     Hotel.rating := Hotel.rating hot;
     Hotel.total_rooms := n;
     Hotel.available_rooms := Hotel.available_rooms hot;
     Hotel.reservations := Hotel.reservations hot |}.

(** Files that hold the given three collections and accept reads and writes. *)
Definition stored (hs : gmap string Hotel.t) (cs : gmap string Customer.t)
    (rs : gmap string Reservation.t) : disk :=
  {| hotels_json := save_file Hotel.to_dict hs new_file;
     customers_json := save_file Customer.to_dict cs new_file;
     reservations_json := save_file Reservation.to_dict rs new_file |}.

(** A date of the calendar, as [datetime] accepts it. *)
Definition calendar_date (x : datetime) : Prop :=
  1 <= year x <= 9999
  /\ 1 <= month x <= 12
  /\ 1 <= day x <= Strptime.days_in_month (year x) (month x).

(** [x] is an earlier day than [y]. *)
Definition before (x y : datetime) : Prop :=
  year x < year y
  \/ (year x = year y
      /\ (month x < month y \/ (month x = month y /\ day x < day y))).

(** A reservation counts against hotel [h] when it names [h] and its status
    is ['active']. *)
Definition is_active (res : Reservation.t) : bool :=
  eq_str "active" (Reservation.status res).

Definition active_at (h : string) (kr : string * Reservation.t) : Prop :=
  Reservation.hotel_id kr.2 = h /\ is_active kr.2 = true.

#[global] Instance active_at_dec h kr : Decision (active_at h kr).
Proof. unfold active_at. apply _. Defined.

Definition active_count (rs : gmap string Reservation.t) (h : string) : Z :=
  Z.of_nat (size (filter (active_at h) rs)).

(** The invariant of the specification for hotel [h], on what the two loads
    return: when [h] is a hotel of the store, its available rooms and its
    active reservations add up to its total. *)
Definition balanced rt (d : disk) (h : string) : Prop :=
  exists hs rs,
    hotels_of rt d = Ok hs
    /\ reservations_of rt d = Ok rs
    /\ forall hot, hs !! h = Some hot ->
         Hotel.available_rooms hot + active_count rs h = Hotel.total_rooms hot.

(** The ledger of hotel [h] agrees with the reservations: every reservation
    that names [h] is cancelled, or is active and listed by the hotel. *)
Definition ledger_tracks rt (d : disk) (h : string) : Prop :=
  exists hs rs,
    hotels_of rt d = Ok hs
    /\ reservations_of rt d = Ok rs
    /\ forall hot rid res,
         hs !! h = Some hot -> rs !! rid = Some res -> Reservation.hotel_id res = h ->
         (Reservation.status res = PStr "active"
          /\ existsb (eq_str rid) (Hotel.reservations hot) = true)
         \/ Reservation.status res = PStr "cancelled".

(** [Reservation.create] returned a reservation, [Reservation.cancel] returned
    [True]. *)
Definition succeeded rt (c : call) (d : disk) : bool :=
  match c with
  | ReservationCreate rid cid hid ci co =>
      match fst (Reservation.create rt rid cid hid ci co d) with
      | Ok (Some _) => true
      | _ => false
      end
  | ReservationCancel rid =>
      match fst (Reservation.cancel rt rid d) with
      | Ok true => true
      | _ => false
      end
  | _ => false
  end.

(** The files after a sequence of creations and cancellations that all
    succeeded; [None] when one of them did not. *)
Fixpoint after_successes rt (cs : list call) (d : disk) : option disk :=
  match cs with
  | [] => Some d
  | c :: cs' =>
      if succeeded rt c d then after_successes rt cs' (after rt c d) else None
  end.

(** A hotel with one room taken and an empty ledger, beside one active
    reservation: the counts balance, the ledger does not list the reservation. *)
Definition unlisted : Hotel.t :=
  {| Hotel.hotel_id := "H1"; Hotel.name := "Grand"; Hotel.location := "NYC";
     Hotel.rating := S754_finite false 5066549580791808 (-50);
     Hotel.total_rooms := 2; Hotel.available_rooms := 1;
     Hotel.reservations := [] |}.

(** The invariant that the two operations of the lifecycle preserve. *)
Definition lifecycle_invariant rt (d : disk) (h : string) : Prop :=
  accessible (hotels_json d)
  /\ accessible (reservations_json d)
  /\ exists hs rs,
       hotels_of rt d = Ok hs
       /\ reservations_of rt d = Ok rs
       /\ (forall hot, hs !! h = Some hot ->
             Hotel.available_rooms hot + active_count rs h = Hotel.total_rooms hot)
       /\ (forall hot rid res,
             hs !! h = Some hot -> rs !! rid = Some res -> Reservation.hotel_id res = h ->
             (Reservation.status res = PStr "active"
              /\ existsb (eq_str rid) (Hotel.reservations hot) = true)
             \/ Reservation.status res = PStr "cancelled").

(** The hotel [Hotel.create] builds from its arguments once [float] and
    [int] have accepted the rating and the room count. *)
Definition opened rt (h : string) (n l : pyval) (rating : spec_float) (total : Z)
  : Hotel.t :=
  {| Hotel.hotel_id := h;
     Hotel.name := Py.str rt n;
     Hotel.location := Py.str rt l;
     Hotel.rating := rating;
     Hotel.total_rooms := total;
     Hotel.available_rooms := total;
     Hotel.reservations := [] |}.

(** The ledger of a hotel accounts for every room: the rooms available and
    the ids it lists add up to the total. *)
Definition ledger_counted (hot : Hotel.t) : Prop :=
  Hotel.available_rooms hot + Z.of_nat (length (Hotel.reservations hot))
  = Hotel.total_rooms hot.

(** [c] is a call of [Hotel.modify]. *)
Definition is_modify (c : call) : bool :=
  match c with
  | HotelModify _ _ => true
  | _ => false
  end.

(** The class a call belongs to. *)
Inductive owner : Type := OfHotel | OfCustomer | OfReservation.

Definition class_of (c : call) : owner :=
  match c with
  | HotelCreate _ _ _ _ _ | HotelDelete _ | HotelModify _ _
  | HotelReserveRoom _ _ | HotelCancelReservation _ _ => OfHotel
  | CustomerCreate _ _ _ _ | CustomerDelete _ => OfCustomer
  | ReservationCreate _ _ _ _ _ | ReservationCancel _ => OfReservation
  end.




(** The file [f] with its write permission taken away: [open(..., 'w')]
    raises [PermissionError], an [OSError]. *)
Definition locked (f : file) : file :=
  {| text := text f; unreadable := unreadable f; read_only := true |}.

(** * Properties *)

(** ** Lookups in a decoded object *)

Lemma assoc_None (k : string) (d : list (string * pyval)) :
  Py.assoc k d = None <-> k ∉ d.*1.
Proof.
  induction d as [|[k' v] d IH]; simpl.
  - split; [intros _; apply not_elem_of_nil | done].
  - rewrite not_elem_of_cons. destruct (String.eqb_spec k k') as [->|Hne].
    + split; [done | intros [? _]; done].
    + rewrite IH. tauto.
Qed.

Lemma assoc_Some (k : string) (v : pyval) (d : list (string * pyval)) :
  NoDup d.*1 -> Py.assoc k d = Some v <-> (k, v) ∈ d.
Proof.
  induction d as [|[k' v'] d IH]; simpl; intros Hnd.
  - split; [done | intros H; by apply elem_of_nil in H].
  - apply NoDup_cons in Hnd as [Hk' Hnd]. rewrite elem_of_cons.
    destruct (String.eqb_spec k k') as [->|Hne].
    + split.
      * intros [= ->]. by left.
      * intros [[= ->]|Hin]; [done|].
        exfalso. apply Hk'. apply list_elem_of_fmap. by exists (k', v).
    + rewrite IH by done. split; [by right|].
      intros [[= -> ->]|Hin]; [done | done].
Qed.

(** ** The record store *)

Section RecordStoreFacts.
Context {A : Type}.
Variable from_dict : pyval -> outcome (option A).
Variable to_dict : A -> pyval.

(** What the loop of [load_all] leaves under a key: the record the file
    holds there when it deserializes, and nothing new when it is skipped. *)
Lemma load_records_lookup items (acc m : gmap string A) (k : string) :
  NoDup items.*1 ->
  load_records from_dict items acc = Ok m ->
  m !! k = match Py.assoc k items with
           | Some v =>
               match from_dict v with
               | Ok (Some a) => Some a
               | _ => acc !! k
               end
           | None => acc !! k
           end.
Proof.
  revert acc. induction items as [|[k0 v0] items IH]; simpl; intros acc Hnd Hload.
  - by injection Hload as <-.
  - apply NoDup_cons in Hnd as [Hk0 Hnd].
    destruct (from_dict v0) as [o|e] eqn:Hv0; simpl in Hload; [|done].
    specialize (IH _ Hnd Hload).
    destruct (String.eqb_spec k k0) as [->|Hne].
    + apply assoc_None in Hk0. rewrite Hk0 in IH. rewrite IH, Hv0.
      destruct o; [by rewrite lookup_insert_eq | done].
    + rewrite IH. destruct o as [a0|]; [|done].
      rewrite lookup_insert_ne by done. done.
Qed.

(** The loop ends normally exactly when no record raises past [from_dict]. *)
Lemma load_records_total items (acc : gmap string A) :
  Forall (fun kv => exists o, from_dict kv.2 = Ok o) items ->
  exists m, load_records from_dict items acc = Ok m.
Proof.
  revert acc. induction items as [|[k0 v0] items IH]; simpl; intros acc Hall.
  - by eexists.
  - apply Forall_cons in Hall as [[o Ho] Hall]. simpl in Ho. rewrite Ho. simpl.
    by apply IH.
Qed.

Lemma load_records_raises items (acc : gmap string A) k v e :
  (k, v) ∈ items -> from_dict v = Raise e ->
  exists e', load_records from_dict items acc = Raise e'.
Proof.
  revert acc. induction items as [|[k0 v0] items IH]; simpl; intros acc Hin Hv.
  - by apply elem_of_nil in Hin.
  - apply elem_of_cons in Hin as [[= <- <-]|Hin].
    + rewrite Hv. by eexists.
    + destruct (from_dict v0); simpl; [by eapply IH | by eexists].
Qed.

Hypothesis from_to : forall a, from_dict (to_dict a) = Ok (Some a).

Lemma load_records_saved (objs : gmap string A) :
  load_records from_dict (map_to_list (to_dict <$> objs)) ∅ = Ok objs.
Proof.
  destruct (load_records_total (map_to_list (to_dict <$> objs)) ∅) as [m Hm].
  { apply Forall_forall. intros [k v] Hin%elem_of_map_to_list.
    rewrite lookup_fmap in Hin. destruct (objs !! k) as [a|]; [|done].
    injection Hin as <-. simpl. rewrite from_to. by eexists. }
  rewrite Hm. f_equal. apply map_eq. intros k.
  rewrite (load_records_lookup _ _ _ k (NoDup_fst_map_to_list _) Hm).
  destruct (Py.assoc k (map_to_list (to_dict <$> objs))) as [v|] eqn:Hk.
  - apply assoc_Some in Hk; [|apply NoDup_fst_map_to_list].
    apply elem_of_map_to_list in Hk. rewrite lookup_fmap in Hk.
    destruct (objs !! k) as [a|]; [|done]. injection Hk as <-.
    by rewrite from_to.
  - apply assoc_None in Hk. rewrite lookup_empty.
    destruct (objs !! k) as [a|] eqn:Ha; [|done].
    exfalso. apply Hk. apply list_elem_of_fmap. exists (k, to_dict a). split; [done|].
    apply elem_of_map_to_list. by rewrite lookup_fmap, Ha.
Qed.

(** Loading what was just saved: the saved mapping when the write went
    through and the file can be read; otherwise what a load gave before, or
    nothing. *)
Lemma load_file_saved (objs : gmap string A) (f : file) :
  load_file from_dict (save_file to_dict objs f) =
    if read_only f then load_file from_dict f
    else if unreadable f then Ok ∅
    else Ok objs.
Proof.
  unfold save_file, dump, load_file. destruct (read_only f); [done|]. simpl.
  destruct (unreadable f); [done|]. apply load_records_saved.
Qed.
End RecordStoreFacts.

(** ** Serialization of the three records *)

Lemma hotel_from_to_dict rt (h : Hotel.t) :
  Hotel.from_dict rt (Hotel.to_dict h) = Ok (Some h).
Proof. by destruct h. Qed.

Lemma customer_from_to_dict rt (c : Customer.t) :
  Customer.from_dict rt (Customer.to_dict c) = Ok (Some c).
Proof. by destruct c. Qed.

Lemma reservation_from_to_dict rt (r : Reservation.t) :
  Reservation.from_dict rt (Reservation.to_dict r) = Ok (Some r).
Proof. by destruct r. Qed.

Lemma hotels_of_saved rt hs d :
  hotels_of rt (set_hotels (save_file Hotel.to_dict hs) d) =
    if read_only (hotels_json d) then hotels_of rt d
    else if unreadable (hotels_json d) then Ok ∅ else Ok hs.
Proof. apply load_file_saved, hotel_from_to_dict. Qed.

Lemma customers_of_saved rt cs d :
  customers_of rt (set_customers (save_file Customer.to_dict cs) d) =
    if read_only (customers_json d) then customers_of rt d
    else if unreadable (customers_json d) then Ok ∅ else Ok cs.
Proof. apply load_file_saved, customer_from_to_dict. Qed.

Lemma reservations_of_saved rt rs d :
  reservations_of rt (set_reservations (save_file Reservation.to_dict rs) d) =
    if read_only (reservations_json d) then reservations_of rt d
    else if unreadable (reservations_json d) then Ok ∅ else Ok rs.
Proof. apply load_file_saved, reservation_from_to_dict. Qed.

(** C8. Round trip: on files that accept the write and the read, [load_all]
    after [save_all] of a mapping of records returns that mapping, field for
    field, in each of the three stores. *)
Theorem save_all_load_all_round_trip rt (d : disk)
    (hs : gmap string Hotel.t) (cs : gmap string Customer.t)
    (rs : gmap string Reservation.t) :
  accessible (hotels_json d) ->
  accessible (customers_json d) ->
  accessible (reservations_json d) ->
  fst ((Hotel.save_all hs ;;; Hotel.load_all rt)%io d) = Ok hs
  /\ fst ((Customer.save_all cs ;;; Customer.load_all rt)%io d) = Ok cs
  /\ fst ((Reservation.save_all rs ;;; Reservation.load_all rt)%io d) = Ok rs.
Proof.
  intros [Hw1 Hr1] [Hw2 Hr2] [Hw3 Hr3]. repeat split.
  - change (hotels_of rt (set_hotels (save_file Hotel.to_dict hs) d) = Ok hs).
    by rewrite hotels_of_saved, Hw1, Hr1.
  - change (customers_of rt (set_customers (save_file Customer.to_dict cs) d) = Ok cs).
    by rewrite customers_of_saved, Hw2, Hr2.
  - change (reservations_of rt (set_reservations (save_file Reservation.to_dict rs) d) = Ok rs).
    by rewrite reservations_of_saved, Hw3, Hr3.
Qed.

Lemma save_all_load_all_round_trip_witness :
  accessible (hotels_json fresh_disk)
  /\ fst ((Hotel.save_all {[ "H1" := grand ]} ;;; Hotel.load_all example_runtime)%io
            fresh_disk) = Ok {[ "H1" := grand ]}
  /\ fst ((Customer.save_all {[ "C1" := alice ]} ;;; Customer.load_all example_runtime)%io
            fresh_disk) = Ok {[ "C1" := alice ]}
  /\ fst ((Reservation.save_all {[ "R1" := stay "active" ]}
             ;;; Reservation.load_all example_runtime)%io fresh_disk)
     = Ok {[ "R1" := stay "active" ]}.
Proof.
  split; [by split|].
  apply (save_all_load_all_round_trip example_runtime fresh_disk); by split.
Defined.

(** ** Loading *)

Lemma load_file_missing {A} (from_dict : pyval -> outcome (option A)) (f : file) :
  text f = None -> load_file from_dict f = Ok ∅.
Proof. unfold load_file. by intros ->. Qed.

Lemma load_file_unparsable {A} (from_dict : pyval -> outcome (option A)) (f : file) :
  text f = Some None -> load_file from_dict f = Ok ∅.
Proof. unfold load_file. intros ->. by destruct (unreadable f). Qed.

Lemma load_file_unreadable {A} (from_dict : pyval -> outcome (option A)) (f : file) :
  unreadable f = true -> load_file from_dict f = Ok ∅.
Proof. unfold load_file. intros ->. by destruct (text f). Qed.

Lemma try_from_dict_ok {A} (body : outcome A) :
  (forall e, body = Raise e -> handled e = true) ->
  exists o, try_from_dict body = Ok o.
Proof.
  intros H. destruct body as [a|e]; simpl; [by eexists|].
  rewrite (H e eq_refl). by eexists.
Qed.

Lemma getitem_handled data k e : Py.getitem data k = Raise e -> handled e = true.
Proof.
  destruct data; simpl; try by intros [= <-].
  destruct (Py.assoc k d); [done | by intros [= <-]].
Qed.

(** A customer record or a reservation record never raises past [from_dict]:
    it deserializes or it is skipped. *)
Lemma customer_from_dict_returns rt data : exists o, Customer.from_dict rt data = Ok o.
Proof.
  apply try_from_dict_ok. intros e.
  destruct (Py.getitem data "customer_id") eqn:H1; simpl; [|intros [= ->]; eauto using getitem_handled].
  destruct (Py.getitem data "name") eqn:H2; simpl; [|intros [= ->]; eauto using getitem_handled].
  destruct (Py.getitem data "email") eqn:H3; simpl; [|intros [= ->]; eauto using getitem_handled].
  destruct (Py.getitem data "phone") eqn:H4; simpl; [|intros [= ->]; eauto using getitem_handled].
  done.
Qed.

Lemma reservation_from_dict_returns rt data : exists o, Reservation.from_dict rt data = Ok o.
Proof.
  apply try_from_dict_ok. intros e.
  destruct (Py.getitem data "reservation_id") eqn:H1; simpl; [|intros [= ->]; eauto using getitem_handled].
  destruct (Py.getitem data "customer_id") eqn:H2; simpl; [|intros [= ->]; eauto using getitem_handled].
  destruct (Py.getitem data "hotel_id") eqn:H3; simpl; [|intros [= ->]; eauto using getitem_handled].
  destruct (Py.getitem data "check_in") eqn:H4; simpl; [|intros [= ->]; eauto using getitem_handled].
  destruct (Py.getitem data "check_out") eqn:H5; simpl; [|intros [= ->]; eauto using getitem_handled].
  destruct data; simpl in *; try done.
Qed.

(** The loads of customers and of reservations skip every bad record and keep
    every good one, whatever the records are. *)
Lemma customer_load_skips_bad_records rt items :
  NoDup items.*1 ->
  exists m, load_records (Customer.from_dict rt) items ∅ = Ok m
    /\ forall k v, (k, v) ∈ items ->
         m !! k = match Customer.from_dict rt v with Ok o => o | Raise _ => None end.
Proof.
  intros Hnd.
  destruct (load_records_total (Customer.from_dict rt) items ∅) as [m Hm].
  { apply Forall_forall. intros [k v] _. apply customer_from_dict_returns. }
  exists m. split; [done|]. intros k v Hin.
  rewrite (load_records_lookup _ _ _ _ k Hnd Hm).
  apply assoc_Some in Hin; [|done]. rewrite Hin, lookup_empty.
  by destruct (Customer.from_dict rt v) as [[?|]|].
Qed.

Lemma reservation_load_skips_bad_records rt items :
  NoDup items.*1 ->
  exists m, load_records (Reservation.from_dict rt) items ∅ = Ok m
    /\ forall k v, (k, v) ∈ items ->
         m !! k = match Reservation.from_dict rt v with Ok o => o | Raise _ => None end.
Proof.
  intros Hnd.
  destruct (load_records_total (Reservation.from_dict rt) items ∅) as [m Hm].
  { apply Forall_forall. intros [k v] _. apply reservation_from_dict_returns. }
  exists m. split; [done|]. intros k v Hin.
  rewrite (load_records_lookup _ _ _ _ k Hnd Hm).
  apply assoc_Some in Hin; [|done]. rewrite Hin, lookup_empty.
  by destruct (Reservation.from_dict rt v) as [[?|]|].
Qed.

(** The load of hotels does the same as long as no record raises an
    exception that [from_dict] does not handle. *)
Lemma hotel_load_skips_bad_records rt items :
  NoDup items.*1 ->
  Forall (fun kv => exists o, Hotel.from_dict rt kv.2 = Ok o) items ->
  exists m, load_records (Hotel.from_dict rt) items ∅ = Ok m
    /\ forall k v, (k, v) ∈ items ->
         m !! k = match Hotel.from_dict rt v with Ok o => o | Raise _ => None end.
Proof.
  intros Hnd Hall.
  destruct (load_records_total (Hotel.from_dict rt) items ∅ Hall) as [m Hm].
  exists m. split; [done|]. intros k v Hin.
  rewrite (load_records_lookup _ _ _ _ k Hnd Hm).
  apply assoc_Some in Hin; [|done]. rewrite Hin, lookup_empty.
  by destruct (Hotel.from_dict rt v) as [[?|]|].
Qed.

(** C9. [load_all] gives the empty mapping for a missing file and for text
    that does not parse, but a hotel record whose [total_rooms] is an infinite
    float is not skipped: [int] raises [OverflowError], nothing handles it, and
    the load of the whole file ends with it, the well-formed record [H1] lost. *)
Theorem hotel_load_all_aborts_on_overflow rt :
  Hotel.from_dict rt infinite_rooms = Raise OverflowError
  /\ Hotel.from_dict rt (Hotel.to_dict grand) = Ok (Some grand)
  /\ Hotel.load_all rt overflowing_disk = (Raise OverflowError, overflowing_disk)
  /\ Hotel.load_all rt fresh_disk = (Ok ∅, fresh_disk)
  /\ load_file (Hotel.from_dict rt) unparsable_file = Ok ∅.
Proof. repeat split. Qed.

(** C10. A stored hotel record with [hotel_id], [name], [location], a
    [rating] that [float] accepts and a [total_rooms] that [int] accepts is
    not skipped for want of [available_rooms] or [reservations]: a missing
    [available_rooms] is read as [total_rooms], a missing [reservations] as the
    empty list, and the record is in the mapping [load_all] returns, provided
    no record of the file raises an exception that [from_dict] lets through. *)
Theorem hotel_record_defaults_on_load rt (f : file) items key rec
    a_id a_name a_location a_rating a_total r n available ids :
  text f = Some (Some (PDict items)) ->
  unreadable f = false ->
  NoDup items.*1 ->
  Forall (fun kv => exists o, Hotel.from_dict rt kv.2 = Ok o) items ->
  (key, PDict rec) ∈ items ->
  Py.assoc "hotel_id" rec = Some a_id ->
  Py.assoc "name" rec = Some a_name ->
  Py.assoc "location" rec = Some a_location ->
  Py.assoc "rating" rec = Some a_rating ->
  Py.assoc "total_rooms" rec = Some a_total ->
  Py.float rt a_rating = Ok r ->
  Py.int rt a_total = Ok n ->
  (Py.assoc "available_rooms" rec = None /\ available = n
   \/ exists v, Py.assoc "available_rooms" rec = Some v /\ Py.int rt v = Ok available) ->
  (Py.assoc "reservations" rec = None /\ ids = []
   \/ exists v, Py.assoc "reservations" rec = Some v /\ Py.list_ v = Ok ids) ->
  exists m,
    load_file (Hotel.from_dict rt) f = Ok m
    /\ m !! key = Some {| Hotel.hotel_id := Py.str rt a_id;
                          Hotel.name := Py.str rt a_name;
                          Hotel.location := Py.str rt a_location;
                          Hotel.rating := r;
                          Hotel.total_rooms := n;
                          Hotel.available_rooms := available;
                          Hotel.reservations := ids |}.
Proof.
  intros Htext Hread Hnd Hall Hin Hid Hname Hloc Hrating Htotal Hr Hn Havail Hids.
  destruct (hotel_load_skips_bad_records rt items Hnd Hall) as (m & Hm & Hlook).
  exists m. split.
  - unfold load_file. by rewrite Htext, Hread.
  - rewrite (Hlook _ _ Hin).
    unfold Hotel.from_dict, Py.getitem, Hotel.init.
    rewrite Hid, Hname, Hloc, Hrating, Htotal. simpl. rewrite Hr. simpl. rewrite Hn. simpl.
    destruct Havail as [[-> ->]|(v & -> & Hv)], Hids as [[-> ->]|(w & -> & Hw)]; simpl;
      rewrite ?Hv; simpl; rewrite ?Hw; done.
Qed.

Lemma hotel_record_defaults_on_load_witness :
  exists m,
    load_file (Hotel.from_dict example_runtime) (holding (PDict [("H1", bare_record)])) = Ok m
    /\ m !! "H1" = Some {| Hotel.hotel_id := "H1"; Hotel.name := "Grand";
                           Hotel.location := "NYC";
                           Hotel.rating := S754_finite false 4503599627370496 (-50);
                           Hotel.total_rooms := 2; Hotel.available_rooms := 2;
                           Hotel.reservations := [] |}.
Proof.
  apply (hotel_record_defaults_on_load example_runtime
           (holding (PDict [("H1", bare_record)])) [("H1", bare_record)] "H1"
           [ ("hotel_id", PStr "H1"); ("name", PStr "Grand"); ("location", PStr "NYC");
             ("rating", PInt 4); ("total_rooms", PInt 2) ]
           (PStr "H1") (PStr "Grand") (PStr "NYC") (PInt 4) (PInt 2)).
  - reflexivity.
  - reflexivity.
  - apply NoDup_singleton.
  - apply Forall_singleton. by eexists.
  - apply list_elem_of_singleton. reflexivity.
  - reflexivity.
  - reflexivity.
  - reflexivity.
  - reflexivity.
  - reflexivity.
  - reflexivity.
  - reflexivity.
  - left. by split.
  - left. by split.
Defined.

(** ** The inventory ledger *)

Lemma reserve_room_run rt h rid d :
  Hotel.reserve_room rt h rid d =
    match hotels_of rt d with
    | Raise e => (Raise e, d)
    | Ok hs =>
        match hs !! h with
        | None => (Ok false, d)
        | Some hot =>
            if (Hotel.available_rooms hot <=? 0)%Z then (Ok false, d)
            else (Ok true,
                  set_hotels (save_file Hotel.to_dict (<[h := reserved hot rid]> hs)) d)
        end
    end.
Proof.
  unfold Hotel.reserve_room, hotels_of, Hotel.load_all, bind. simpl.
  destruct (load_file _ _) as [hs|]; [|done].
  destruct (hs !! h) as [hot|]; [|done].
  by destruct (Hotel.available_rooms hot <=? 0)%Z.
Qed.

Lemma cancel_reservation_run rt h rid d :
  Hotel.cancel_reservation rt h rid d =
    match hotels_of rt d with
    | Raise e => (Raise e, d)
    | Ok hs =>
        match hs !! h with
        | None => (Ok false, d)
        | Some hot =>
            if existsb (eq_str rid) (Hotel.reservations hot)
            then (Ok true,
                  set_hotels (save_file Hotel.to_dict (<[h := released hot rid]> hs)) d)
            else (Ok false, d)
        end
    end.
Proof.
  unfold Hotel.cancel_reservation, hotels_of, Hotel.load_all, bind. simpl.
  destruct (load_file _ _) as [hs|]; [|done].
  destruct (hs !! h) as [hot|]; [|done].
  by destruct (existsb _ _).
Qed.

(** What a load sees after a save of [hs]: [hs], or what it saw before when
    the write was refused or the file cannot be read. *)
Lemma hotels_of_saved_cases rt d hs0 hs hs' :
  hotels_of rt d = Ok hs0 ->
  hotels_of rt (set_hotels (save_file Hotel.to_dict hs) d) = Ok hs' ->
  hs' = hs0 \/ (hs' = hs /\ accessible (hotels_json d)).
Proof.
  rewrite hotels_of_saved. intros H0.
  destruct (read_only (hotels_json d)) eqn:Hw.
  - rewrite H0. intros [= <-]. by left.
  - destruct (unreadable (hotels_json d)) eqn:Hr.
    + intros [= <-]. left. unfold hotels_of in H0. simpl in H0.
      rewrite load_file_unreadable in H0 by done. by injection H0.
    + intros [= <-]. right. by repeat split.
Qed.

Lemma reserved_within_bounds hot rid :
  within_bounds hot -> (Hotel.available_rooms hot <=? 0)%Z = false ->
  within_bounds (reserved hot rid).
Proof. unfold within_bounds. simpl. intros ? ?%Z.leb_gt. lia. Qed.

Lemma released_within_bounds hot rid :
  within_bounds hot -> within_bounds (released hot rid).
Proof. unfold within_bounds. simpl. lia. Qed.

Lemma released_clamped hot rid :
  Hotel.available_rooms (released hot rid) <= Hotel.total_rooms (released hot rid).
Proof. simpl. lia. Qed.

Lemma reserve_room_keeps_bounds rt h rid d :
  ledger_bounded rt d -> ledger_bounded rt (snd (Hotel.reserve_room rt h rid d)).
Proof.
  intros Hb. rewrite reserve_room_run.
  destruct (hotels_of rt d) as [hs|] eqn:Hhs; [|done].
  destruct (hs !! h) as [hot|] eqn:Hh; [|done].
  destruct (Hotel.available_rooms hot <=? 0)%Z eqn:Hav; [done|]. simpl.
  intros hs' k hot' Hhs' Hk.
  destruct (hotels_of_saved_cases _ _ _ _ _ Hhs Hhs') as [->|[-> _]]; [by eapply Hb|].
  destruct (decide (h = k)) as [<-|Hne].
  - rewrite lookup_insert_eq in Hk. injection Hk as <-.
    apply reserved_within_bounds; [by eapply Hb | done].
  - rewrite lookup_insert_ne in Hk by done. by eapply Hb.
Qed.

Lemma cancel_reservation_keeps_bounds rt h rid d :
  ledger_bounded rt d -> ledger_bounded rt (snd (Hotel.cancel_reservation rt h rid d)).
Proof.
  intros Hb. rewrite cancel_reservation_run.
  destruct (hotels_of rt d) as [hs|] eqn:Hhs; [|done].
  destruct (hs !! h) as [hot|] eqn:Hh; [|done].
  destruct (existsb _ _) eqn:Hin; [|done]. simpl.
  intros hs' k hot' Hhs' Hk.
  destruct (hotels_of_saved_cases _ _ _ _ _ Hhs Hhs') as [->|[-> _]]; [by eapply Hb|].
  destruct (decide (h = k)) as [<-|Hne].
  - rewrite lookup_insert_eq in Hk. injection Hk as <-.
    apply released_within_bounds. by eapply Hb.
  - rewrite lookup_insert_ne in Hk by done. by eapply Hb.
Qed.

(** C4. The ledger keeps [0 <= available_rooms <= total_rooms]: both of its
    operations preserve the bounds of every hotel; [reserve_room] on a hotel
    with no available room fails and changes nothing; and whatever the files
    held before, the hotel a [cancel_reservation] leaves either has
    [available_rooms <= total_rooms] or has the [available_rooms] it had. *)
Theorem ledger_keeps_bounds rt h rid d hs hot :
  hotels_of rt d = Ok hs ->
  hs !! h = Some hot ->
  (Hotel.available_rooms hot <= 0 -> Hotel.reserve_room rt h rid d = (Ok false, d))
  /\ (ledger_bounded rt d ->
      ledger_bounded rt (snd (Hotel.reserve_room rt h rid d))
      /\ ledger_bounded rt (snd (Hotel.cancel_reservation rt h rid d))
      /\ ledger_bounded rt
           (snd (Hotel.cancel_reservation rt h rid
                   (snd (Hotel.cancel_reservation rt h rid d)))))
  /\ (forall hs' hot',
        hotels_of rt (snd (Hotel.cancel_reservation rt h rid d)) = Ok hs' ->
        hs' !! h = Some hot' ->
        Hotel.total_rooms hot' = Hotel.total_rooms hot
        /\ (Hotel.available_rooms hot' <= Hotel.total_rooms hot'
            \/ Hotel.available_rooms hot' = Hotel.available_rooms hot)).
Proof.
  intros Hhs Hh. split; [|split].
  - intros Hzero. rewrite reserve_room_run, Hhs, Hh.
    by destruct (Z.leb_spec (Hotel.available_rooms hot) 0); [|lia].
  - intros Hb. split; [|split].
    + by apply reserve_room_keeps_bounds.
    + by apply cancel_reservation_keeps_bounds.
    + by do 2 apply cancel_reservation_keeps_bounds.
  - intros hs' hot'. rewrite cancel_reservation_run, Hhs, Hh.
    destruct (existsb _ _); simpl.
    + intros Hhs' Hk.
      destruct (hotels_of_saved_cases _ _ _ _ _ Hhs Hhs') as [->|[-> _]].
      * rewrite Hh in Hk. injection Hk as <-. split; [done | by right].
      * rewrite lookup_insert_eq in Hk. injection Hk as <-.
        split; [done|]. left. apply released_clamped.
    + rewrite Hhs. intros [= <-]. rewrite Hh. intros [= <-]. split; [done | by right].
Qed.

Lemma ledger_keeps_bounds_witness :
  Hotel.available_rooms full_hotel <= 0
  /\ Hotel.reserve_room example_runtime "H1" "R2" (hotels_disk {[ "H1" := full_hotel ]})
     = (Ok false, hotels_disk {[ "H1" := full_hotel ]}).
Proof.
  split; [done|].
  by apply (ledger_keeps_bounds example_runtime "H1" "R2"
              (hotels_disk {[ "H1" := full_hotel ]}) {[ "H1" := full_hotel ]} full_hotel).
Defined.

(** ** What each call does to the files *)

Lemma hotel_create_run rt h n l r t d :
  Hotel.create rt h n l r t d =
    match hotels_of rt d with
    | Raise e => (Raise e, d)
    | Ok hs =>
        match hs !! h with
        | Some _ => (Ok None, d)
        | None =>
            match Hotel.init rt (PStr h) n l r t with
            | Ok hot => (Ok (Some hot), set_hotels (save_file Hotel.to_dict (<[h := hot]> hs)) d)
            | Raise ValueError | Raise TypeError => (Ok None, d)
            | Raise e => (Raise e, d)
            end
        end
    end.
Proof.
  unfold Hotel.create, hotels_of, Hotel.load_all, bind. simpl.
  destruct (load_file _ _) as [hs|]; [|done].
  destruct (hs !! h); [done|].
  by destruct (Hotel.init _ _ _ _ _ _) as [hot|[]].
Qed.

Lemma hotel_delete_run rt h d :
  Hotel.delete rt h d =
    match hotels_of rt d with
    | Raise e => (Raise e, d)
    | Ok hs =>
        match hs !! h with
        | None => (Ok false, d)
        | Some _ => (Ok true, set_hotels (save_file Hotel.to_dict (delete h hs)) d)
        end
    end.
Proof.
  unfold Hotel.delete, hotels_of, Hotel.load_all, bind. simpl.
  destruct (load_file _ _) as [hs|]; [|done]. by destruct (hs !! h).
Qed.

Lemma hotel_modify_run rt h kwargs d :
  Hotel.modify rt h kwargs d =
    match hotels_of rt d with
    | Raise e => (Raise e, d)
    | Ok hs =>
        match hs !! h with
        | None => (Ok false, d)
        | Some hot =>
            (Ok true,
             set_hotels (dump (<[h := PDict (modified hot kwargs)]> (Hotel.to_dict <$> hs))) d)
        end
    end.
Proof.
  unfold Hotel.modify, hotels_of, Hotel.load_all, bind. simpl.
  destruct (load_file _ _) as [hs|]; [|done]. by destruct (hs !! h).
Qed.

Lemma reservation_create_run rt rid cid hid ci co d :
  Reservation.create rt rid cid hid ci co d =
    match fst (Reservation.validate_dates ci co) with
    | None => (Ok None, d)
    | Some _ =>
        match reservations_of rt d with
        | Raise e => (Raise e, d)
        | Ok rs =>
            match rs !! rid with
            | Some _ => (Ok None, d)
            | None =>
                match customers_of rt d with
                | Raise e => (Raise e, d)
                | Ok cs =>
                    match cs !! cid with
                    | None => (Ok None, d)
                    | Some _ =>
                        match Hotel.reserve_room rt hid rid d with
                        | (Raise e, d1) => (Raise e, d1)
                        | (Ok false, d1) => (Ok None, d1)
                        | (Ok true, d1) =>
                            (Ok (Some (booking rid cid hid ci co)),
                             set_reservations
                               (save_file Reservation.to_dict
                                  (<[rid := booking rid cid hid ci co]> rs)) d1)
                        end
                    end
                end
            end
        end
    end.
Proof.
  unfold Reservation.create.
  destruct (fst (Reservation.validate_dates ci co)); [|done].
  unfold reservations_of, customers_of, Reservation.load_all, Customer.get,
    Customer.load_all, bind. simpl.
  destruct (load_file _ (reservations_json d)) as [rs|]; [|done].
  destruct (rs !! rid); [done|].
  destruct (load_file _ (customers_json d)) as [cs|]; [|done]. simpl.
  destruct (cs !! cid); [|done].
  destruct (Hotel.reserve_room rt hid rid d) as [[[]|] d1]; done.
Qed.

Lemma reservation_cancel_run rt rid d :
  Reservation.cancel rt rid d =
    match reservations_of rt d with
    | Raise e => (Raise e, d)
    | Ok rs =>
        match rs !! rid with
        | None => (Ok false, d)
        | Some res =>
            if eq_str "cancelled" (Reservation.status res) then (Ok false, d)
            else
              match Hotel.cancel_reservation rt (Reservation.hotel_id res) rid d with
              | (Raise e, d1) => (Raise e, d1)
              | (Ok _, d1) =>
                  (Ok true,
                   set_reservations
                     (save_file Reservation.to_dict (<[rid := cancelled res]> rs)) d1)
              end
        end
    end.
Proof.
  unfold Reservation.cancel, reservations_of, Reservation.load_all, bind. simpl.
  destruct (load_file _ (reservations_json d)) as [rs|]; [|done].
  destruct (rs !! rid) as [res|]; [|done].
  destruct (eq_str _ _); [done|].
  destruct (Hotel.cancel_reservation _ _ _ _) as [[|] d1]; done.
Qed.

(** ** total_rooms *)

Lemma assoc_map_to_list (recs : gmap string pyval) (k : string) :
  Py.assoc k (map_to_list recs) = recs !! k.
Proof.
  destruct (recs !! k) as [v|] eqn:Hk.
  - apply assoc_Some; [apply NoDup_fst_map_to_list|]. by apply elem_of_map_to_list.
  - apply assoc_None. intros ([k' v] & -> & Hin%elem_of_map_to_list)%list_elem_of_fmap.
    simpl in Hk. congruence.
Qed.

Lemma load_file_dumped {A} (from_dict : pyval -> outcome (option A)) recs f m k :
  accessible f ->
  load_file from_dict (dump recs f) = Ok m ->
  m !! k = match recs !! k with
           | Some v => match from_dict v with Ok (Some a) => Some a | _ => None end
           | None => None
           end.
Proof.
  intros [Hw Hr]. unfold dump, load_file. rewrite Hw. simpl. rewrite Hr. intros Hm.
  rewrite (load_records_lookup _ _ _ _ k (NoDup_fst_map_to_list _) Hm).
  by rewrite assoc_map_to_list, lookup_empty.
Qed.

Lemma assoc_setattr_ne o key val k :
  k <> key -> Py.assoc k (setattr o key val) = Py.assoc k o.
Proof.
  intros Hne. induction o as [|[k0 v0] o IH]; simpl.
  - by destruct (String.eqb_spec k key).
  - destruct (String.eqb_spec key k0) as [->|Hk0]; simpl.
    + by destruct (String.eqb_spec k k0).
    + by rewrite IH.
Qed.

Lemma assoc_modified_total_rooms hot kwargs :
  existsb (fun kv => String.eqb (fst kv) "total_rooms") kwargs = false ->
  Py.assoc "total_rooms" (modified hot kwargs) = Some (PInt (Hotel.total_rooms hot)).
Proof.
  unfold modified. generalize (eq_refl (Py.assoc "total_rooms" (Hotel.vars hot))).
  generalize (Hotel.vars hot) at 2 3. simpl. intros o Ho. revert o Ho.
  induction kwargs as [|[key val] kwargs IH]; simpl; intros o Ho Hnot; [done|].
  apply orb_false_elim in Hnot as [Hkey Hnot]. apply IH; [|done].
  destruct (Hotel.allowed key); [|done].
  rewrite assoc_setattr_ne; [done|]. intros <-. by rewrite String.eqb_refl in Hkey.
Qed.

Lemma hotel_from_dict_total_rooms rt o hot n :
  Hotel.from_dict rt (PDict o) = Ok (Some hot) ->
  Py.assoc "total_rooms" o = Some (PInt n) ->
  Hotel.total_rooms hot = n.
Proof.
  unfold Hotel.from_dict, Py.getitem, Hotel.init. intros H Ht. rewrite Ht in H.
  destruct (Py.assoc "hotel_id" o); simpl in H; [|done].
  destruct (Py.assoc "name" o); simpl in H; [|done].
  destruct (Py.assoc "location" o); simpl in H; [|done].
  destruct (Py.assoc "rating" o) as [a_rating|]; simpl in H; [|done].
  destruct (Py.float rt a_rating); simpl in H; [|by destruct e].
  destruct (Py.int rt _); simpl in H; [|by destruct e].
  destruct (Py.list_ _); simpl in H; [|by destruct e].
  by injection H as <-.
Qed.

(** A call other than [modify] leaves the hotels file alone or saves hotels
    whose [total_rooms] are those it loaded. *)
Lemma hotels_json_after rt c d hs :
  hotels_of rt d = Ok hs ->
  (forall h kwargs, c <> HotelModify h kwargs) ->
  hotels_json (after rt c d) = hotels_json d
  \/ exists hs1,
       hotels_json (after rt c d) = save_file Hotel.to_dict hs1 (hotels_json d)
       /\ forall k hot hot1, hs !! k = Some hot -> hs1 !! k = Some hot1 ->
            Hotel.total_rooms hot1 = Hotel.total_rooms hot.
Proof.
  intros Hhs Hc.
  assert (Hres : forall h rid,
    hotels_json (snd (Hotel.reserve_room rt h rid d)) = hotels_json d
    \/ exists hs1,
         hotels_json (snd (Hotel.reserve_room rt h rid d))
           = save_file Hotel.to_dict hs1 (hotels_json d)
         /\ forall k hot hot1, hs !! k = Some hot -> hs1 !! k = Some hot1 ->
              Hotel.total_rooms hot1 = Hotel.total_rooms hot).
  { intros h rid. rewrite reserve_room_run, Hhs.
    destruct (hs !! h) as [hot0|] eqn:Hh; [|by left].
    destruct (Hotel.available_rooms hot0 <=? 0)%Z; [by left|].
    right. eexists. split; [done|]. intros k hot hot1 Hk Hk1.
    destruct (decide (h = k)) as [<-|Hne].
    - rewrite lookup_insert_eq in Hk1. injection Hk1 as <-. simpl. congruence.
    - rewrite lookup_insert_ne in Hk1 by done. congruence. }
  assert (Hcan : forall h rid,
    hotels_json (snd (Hotel.cancel_reservation rt h rid d)) = hotels_json d
    \/ exists hs1,
         hotels_json (snd (Hotel.cancel_reservation rt h rid d))
           = save_file Hotel.to_dict hs1 (hotels_json d)
         /\ forall k hot hot1, hs !! k = Some hot -> hs1 !! k = Some hot1 ->
              Hotel.total_rooms hot1 = Hotel.total_rooms hot).
  { intros h rid. rewrite cancel_reservation_run, Hhs.
    destruct (hs !! h) as [hot0|] eqn:Hh; [|by left].
    destruct (existsb _ _); [|by left].
    right. eexists. split; [done|]. intros k hot hot1 Hk Hk1.
    destruct (decide (h = k)) as [<-|Hne].
    - rewrite lookup_insert_eq in Hk1. injection Hk1 as <-. simpl. congruence.
    - rewrite lookup_insert_ne in Hk1 by done. congruence. }
  destruct c as [h n l r t|h|h kwargs|h rid|h rid|c n e p|c|rid cid hid ci co|rid]; simpl.
  - rewrite hotel_create_run, Hhs.
    destruct (hs !! h) as [hot0|] eqn:Hh; [by left|].
    destruct (Hotel.init _ _ _ _ _ _) as [hot0|[]]; try by left.
    right. eexists. split; [done|]. intros k hot hot1 Hk Hk1.
    destruct (decide (h = k)) as [<-|Hne]; [congruence|].
    rewrite lookup_insert_ne in Hk1 by done. congruence.
  - rewrite hotel_delete_run, Hhs.
    destruct (hs !! h) as [hot0|] eqn:Hh; [|by left].
    right. eexists. split; [done|]. intros k hot hot1 Hk Hk1.
    destruct (decide (h = k)) as [<-|Hne].
    + by rewrite lookup_delete_eq in Hk1.
    + rewrite lookup_delete_ne in Hk1 by done. congruence.
  - by destruct (Hc h kwargs).
  - apply Hres.
  - apply Hcan.
  - left. unfold Customer.create, Customer.load_all, bind. simpl.
    destruct (load_file _ _) as [cs|]; [|done]. by destruct (cs !! c).
  - left. unfold Customer.delete, Customer.load_all, bind. simpl.
    destruct (load_file _ _) as [cs|]; [|done]. by destruct (cs !! c).
  - rewrite reservation_create_run.
    destruct (fst _); [|by left].
    destruct (reservations_of rt d) as [rs|]; [|by left].
    destruct (rs !! rid); [by left|].
    destruct (customers_of rt d) as [cs|]; [|by left].
    destruct (cs !! cid); [|by left].
    specialize (Hres hid rid).
    by destruct (Hotel.reserve_room rt hid rid d) as [[[]|] d1].
  - rewrite reservation_cancel_run.
    destruct (reservations_of rt d) as [rs|]; [|by left].
    destruct (rs !! rid) as [res|]; [|by left].
    destruct (eq_str _ _); [by left|].
    specialize (Hcan (Reservation.hotel_id res) rid).
    by destruct (Hotel.cancel_reservation _ _ _ _) as [[|] d1].
Qed.

Lemma hotel_from_dict_modified_total_rooms rt hot n :
  Hotel.from_dict rt (PDict (modified hot [("total_rooms", PInt n)]))
  = Ok (Some (with_total_rooms hot n)).
Proof. by destruct hot. Qed.

(** C3, as the code has it. [total_rooms] of a hotel is what [modify] last
    stored under the keyword [total_rooms], and else what [create] gave it:
    every other call, [modify] with other keywords included, leaves it as it
    was, and [modify] with [total_rooms] stores the value given. *)
Theorem total_rooms_changes_only_by_modify rt d hs k hot :
  hotels_of rt d = Ok hs ->
  hs !! k = Some hot ->
  (forall c hs' hot',
     sets_total_rooms c = false ->
     hotels_of rt (after rt c d) = Ok hs' ->
     hs' !! k = Some hot' ->
     Hotel.total_rooms hot' = Hotel.total_rooms hot)
  /\ (forall n,
        accessible (hotels_json d) ->
        exists hs',
          hotels_of rt (after rt (HotelModify k [("total_rooms", PInt n)]) d) = Ok hs'
          /\ hs' !! k = Some (with_total_rooms hot n)).
Proof.
  intros Hhs Hk. split.
  - intros c hs' hot' Hc Hhs' Hk'.
    destruct (match c with HotelModify _ _ => true | _ => false end) eqn:Hmod.
    + destruct c as [| |h kwargs| | | | | |]; try done. simpl in Hc, Hhs'.
      rewrite hotel_modify_run, Hhs in Hhs'.
      destruct (hs !! h) as [hot0|] eqn:Hh; simpl in Hhs'; [|congruence].
      unfold hotels_of in Hhs'. simpl in Hhs'.
      destruct (read_only (hotels_json d)) eqn:Hw.
      { unfold dump in Hhs'. rewrite Hw in Hhs'. unfold hotels_of in Hhs. simpl in Hhs.
        congruence. }
      destruct (unreadable (hotels_json d)) eqn:Hr.
      { rewrite load_file_unreadable in Hhs'; [|by unfold dump; rewrite Hw].
        injection Hhs' as <-. by rewrite lookup_empty in Hk'. }
      rewrite (load_file_dumped _ _ _ _ k (conj Hw Hr) Hhs') in Hk'.
      destruct (decide (h = k)) as [->|Hne].
      * rewrite lookup_insert_eq in Hk'.
        destruct (Hotel.from_dict rt _) as [[hot1|]|] eqn:Hfrom; try done.
        injection Hk' as ->.
        apply (hotel_from_dict_total_rooms _ _ _ _ Hfrom).
        rewrite assoc_modified_total_rooms by done. congruence.
      * rewrite lookup_insert_ne, lookup_fmap, Hk in Hk' by done.
        change (Hotel.to_dict <$> Some hot) with (Some (Hotel.to_dict hot)) in Hk'.
        cbv beta iota in Hk'. rewrite hotel_from_to_dict in Hk'. congruence.
    + destruct (hotels_json_after rt c d hs Hhs) as [Heq|(hs1 & Heq & Hsame)].
      { intros h kwargs ->. done. }
      * unfold hotels_of in *. simpl in *. rewrite Heq in Hhs'. congruence.
      * unfold hotels_of in Hhs'. simpl in Hhs'. rewrite Heq in Hhs'.
        rewrite load_file_saved in Hhs' by apply hotel_from_to_dict.
        unfold hotels_of in Hhs. simpl in Hhs.
        destruct (read_only (hotels_json d)); [congruence|].
        destruct (unreadable (hotels_json d)).
        { injection Hhs' as <-. by rewrite lookup_empty in Hk'. }
        injection Hhs' as <-. by eapply Hsame.
  - intros n [Hw Hr]. simpl. rewrite hotel_modify_run, Hhs, Hk. simpl.
    unfold hotels_of. simpl.
    set (recs := <[k := PDict (modified hot [("total_rooms", PInt n)])]>
                   (Hotel.to_dict <$> hs)).
    assert (Hall : Forall (fun kv => exists o, Hotel.from_dict rt kv.2 = Ok o)
                     (map_to_list recs)).
    { apply Forall_forall. intros [k' v] Hin%elem_of_map_to_list. simpl.
      unfold recs in Hin. destruct (decide (k = k')) as [<-|Hne].
      - rewrite lookup_insert_eq in Hin. injection Hin as <-.
        rewrite hotel_from_dict_modified_total_rooms. by eexists.
      - rewrite lookup_insert_ne, lookup_fmap in Hin by done.
        destruct (hs !! k'); [|done]. injection Hin as <-.
        rewrite hotel_from_to_dict. by eexists. }
    destruct (load_records_total _ _ ∅ Hall) as [m Hm].
    assert (Hload : load_file (Hotel.from_dict rt) (dump recs (hotels_json d)) = Ok m).
    { unfold dump, load_file. rewrite Hw. simpl. by rewrite Hr. }
    exists m. split; [done|].
    rewrite (load_file_dumped _ _ _ _ k (conj Hw Hr) Hload).
    unfold recs. by rewrite lookup_insert_eq, hotel_from_dict_modified_total_rooms.
Qed.

Lemma total_rooms_changes_only_by_modify_witness :
  hotels_of example_runtime (hotels_disk {[ "H1" := grand ]}) = Ok {[ "H1" := grand ]}
  /\ exists hs',
       hotels_of example_runtime
         (after example_runtime (HotelModify "H1" [("total_rooms", PInt 7)])
            (hotels_disk {[ "H1" := grand ]})) = Ok hs'
       /\ hs' !! "H1" = Some (with_total_rooms grand 7).
Proof.
  split; [done|].
  apply (total_rooms_changes_only_by_modify example_runtime
           (hotels_disk {[ "H1" := grand ]}) {[ "H1" := grand ]} "H1" grand);
    [done | done | by split].
Defined.

(** C3 as stated fails: [modify] accepts the keyword [total_rooms] and the
    hotel is stored with the new value. *)
Lemma modify_overwrites_total_rooms :
  (forall rt, fst (Hotel.get rt "H1" (hotels_disk {[ "H1" := grand ]})) = Ok (Some grand))
  /\ (forall rt,
        fst ((Hotel.modify rt "H1" [("total_rooms", PInt 7)] ;;; Hotel.get rt "H1")%io
               (hotels_disk {[ "H1" := grand ]}))
        = Ok (Some (with_total_rooms grand 7)))
  /\ Hotel.total_rooms grand = 2
  /\ Hotel.total_rooms (with_total_rooms grand 7) = 7.
Proof. repeat split. Qed.

(** ** The reservation lifecycle *)

Lemma eq_str_true x v : eq_str x v = true <-> v = PStr x.
Proof.
  destruct v; simpl; try (split; [done | by intros [=]]).
  destruct (String.eqb_spec x s) as [->|Hne]; split; try done.
  intros [= ->]. done.
Qed.

Lemma loaded_reservations_readable rt d rs rid res :
  reservations_of rt d = Ok rs -> rs !! rid = Some res ->
  unreadable (reservations_json d) = false.
Proof.
  intros Hrs Hrid. destruct (unreadable (reservations_json d)) eqn:Hr; [|done].
  unfold reservations_of in Hrs. simpl in Hrs.
  rewrite load_file_unreadable in Hrs by done. injection Hrs as <-.
  by rewrite lookup_empty in Hrid.
Qed.

Lemma reserve_room_false_unchanged rt h rid d d1 :
  Hotel.reserve_room rt h rid d = (Ok false, d1) -> d1 = d.
Proof.
  rewrite reserve_room_run.
  destruct (hotels_of rt d) as [hs|]; [|done].
  destruct (hs !! h) as [hot|]; [|by intros [= <-]].
  destruct (Hotel.available_rooms hot <=? 0)%Z; [by intros [= <-] | done].
Qed.

Lemma cancel_reservation_false_unchanged rt h rid d d1 :
  Hotel.cancel_reservation rt h rid d = (Ok false, d1) -> d1 = d.
Proof.
  rewrite cancel_reservation_run.
  destruct (hotels_of rt d) as [hs|]; [|done].
  destruct (hs !! h) as [hot|]; [|by intros [= <-]].
  destruct (existsb _ _); [done | by intros [= <-]].
Qed.

(** The release fails, with [False], when the hotel is not in the store
    (it was deleted, say) and when its ledger does not hold the reservation. *)
Lemma release_fails_without_hotel rt h rid d hs :
  hotels_of rt d = Ok hs -> hs !! h = None ->
  Hotel.cancel_reservation rt h rid d = (Ok false, d).
Proof. intros Hhs Hh. by rewrite cancel_reservation_run, Hhs, Hh. Qed.

Lemma release_fails_without_entry rt h rid d hs hot :
  hotels_of rt d = Ok hs -> hs !! h = Some hot ->
  existsb (eq_str rid) (Hotel.reservations hot) = false ->
  Hotel.cancel_reservation rt h rid d = (Ok false, d).
Proof. intros Hhs Hh Hin. by rewrite cancel_reservation_run, Hhs, Hh, Hin. Qed.

(** C5. Cancelling a reservation that is already cancelled returns [False]
    and leaves the three files as they were: nothing is saved again, neither
    the reservations nor the hotels. *)
Theorem cancel_of_cancelled_changes_nothing rt d rs rid res :
  reservations_of rt d = Ok rs ->
  rs !! rid = Some res ->
  Reservation.status res = PStr "cancelled" ->
  Reservation.cancel rt rid d = (Ok false, d).
Proof.
  intros Hrs Hrid Hst. by rewrite reservation_cancel_run, Hrs, Hrid, Hst.
Qed.

Lemma cancel_of_cancelled_changes_nothing_witness :
  Reservation.status (stay "cancelled") = PStr "cancelled"
  /\ Reservation.cancel example_runtime "R1"
       (stored {[ "H1" := grand ]} {[ "C1" := alice ]} {[ "R1" := stay "cancelled" ]})
     = (Ok false,
        stored {[ "H1" := grand ]} {[ "C1" := alice ]} {[ "R1" := stay "cancelled" ]}).
Proof.
  split; [done|].
  by apply (cancel_of_cancelled_changes_nothing example_runtime _
              {[ "R1" := stay "cancelled" ]} "R1" (stay "cancelled")).
Defined.

(** C7. An active reservation is cancelled even when the hotel refuses the
    release: [cancel] returns [True], the reservation is stored as cancelled,
    and the hotels file is as it was.  The reservations file must take the
    write. *)
Theorem cancel_survives_failed_release rt d rs rid res :
  reservations_of rt d = Ok rs ->
  rs !! rid = Some res ->
  Reservation.status res = PStr "active" ->
  read_only (reservations_json d) = false ->
  fst (Hotel.cancel_reservation rt (Reservation.hotel_id res) rid d) = Ok false ->
  exists d',
    Reservation.cancel rt rid d = (Ok true, d')
    /\ reservations_of rt d' = Ok (<[rid := cancelled res]> rs)
    /\ Reservation.status (cancelled res) = PStr "cancelled"
    /\ hotels_json d' = hotels_json d.
Proof.
  intros Hrs Hrid Hst Hw Hrel.
  pose proof (loaded_reservations_readable _ _ _ _ _ Hrs Hrid) as Hr.
  rewrite reservation_cancel_run, Hrs, Hrid, Hst. simpl.
  destruct (Hotel.cancel_reservation _ _ _ _) as [out d1] eqn:Hcan.
  simpl in Hrel. subst out.
  apply cancel_reservation_false_unchanged in Hcan as ->.
  eexists. split; [done|]. split; [|done].
  by rewrite reservations_of_saved, Hw, Hr.
Qed.

Lemma cancel_survives_failed_release_witness :
  fst (Hotel.cancel_reservation example_runtime "H1" "R1"
         (stored ∅ {[ "C1" := alice ]} {[ "R1" := stay "active" ]})) = Ok false
  /\ exists d',
       Reservation.cancel example_runtime "R1"
         (stored ∅ {[ "C1" := alice ]} {[ "R1" := stay "active" ]}) = (Ok true, d')
       /\ reservations_of example_runtime d'
          = Ok (<["R1" := cancelled (stay "active")]> {[ "R1" := stay "active" ]})
       /\ Reservation.status (cancelled (stay "active")) = PStr "cancelled"
       /\ hotels_json d'
          = hotels_json (stored ∅ {[ "C1" := alice ]} {[ "R1" := stay "active" ]}).
Proof.
  split; [done|].
  by apply (cancel_survives_failed_release example_runtime
              (stored ∅ {[ "C1" := alice ]} {[ "R1" := stay "active" ]})
              {[ "R1" := stay "active" ]} "R1" (stay "active")).
Defined.

(** C2. [create] checks, in this order, the dates, that the reservation id is
    new, that the customer exists, and that the hotel has a room; the first
    check that fails ends the call with [None] and the three files as they
    were.  Only when all four pass are the hotel and then the reservation
    saved.  In particular a call for a customer that is not in the store never
    returns a reservation and leaves every file as it was. *)
Theorem create_checks_in_order rt rid cid hid ci co d :
  (fst (Reservation.validate_dates ci co) = None ->
   Reservation.create rt rid cid hid ci co d = (Ok None, d))
  /\ (forall date_in rs res,
        fst (Reservation.validate_dates ci co) = Some date_in ->
        reservations_of rt d = Ok rs ->
        rs !! rid = Some res ->
        Reservation.create rt rid cid hid ci co d = (Ok None, d))
  /\ (forall date_in rs cs,
        fst (Reservation.validate_dates ci co) = Some date_in ->
        reservations_of rt d = Ok rs ->
        rs !! rid = None ->
        customers_of rt d = Ok cs ->
        cs !! cid = None ->
        Reservation.create rt rid cid hid ci co d = (Ok None, d))
  /\ (forall date_in rs cs c,
        fst (Reservation.validate_dates ci co) = Some date_in ->
        reservations_of rt d = Ok rs ->
        rs !! rid = None ->
        customers_of rt d = Ok cs ->
        cs !! cid = Some c ->
        fst (Hotel.reserve_room rt hid rid d) = Ok false ->
        Reservation.create rt rid cid hid ci co d = (Ok None, d))
  /\ (forall date_in rs cs c d1,
        fst (Reservation.validate_dates ci co) = Some date_in ->
        reservations_of rt d = Ok rs ->
        rs !! rid = None ->
        customers_of rt d = Ok cs ->
        cs !! cid = Some c ->
        Hotel.reserve_room rt hid rid d = (Ok true, d1) ->
        Reservation.create rt rid cid hid ci co d
        = (Ok (Some (booking rid cid hid ci co)),
           set_reservations
             (save_file Reservation.to_dict (<[rid := booking rid cid hid ci co]> rs)) d1))
  /\ (forall cs,
        customers_of rt d = Ok cs ->
        cs !! cid = None ->
        snd (Reservation.create rt rid cid hid ci co d) = d
        /\ forall res, fst (Reservation.create rt rid cid hid ci co d) <> Ok (Some res)).
Proof.
  rewrite reservation_create_run. repeat apply conj.
  - by intros ->.
  - by intros date_in rs res -> -> ->.
  - by intros date_in rs cs -> -> -> -> ->.
  - intros date_in rs cs c -> -> -> -> -> Hres.
    destruct (Hotel.reserve_room rt hid rid d) as [out d1] eqn:Hrun.
    simpl in Hres. subst out. by apply reserve_room_false_unchanged in Hrun as ->.
  - by intros date_in rs cs c d1 -> -> -> -> -> ->.
  - intros cs Hcs Hcid.
    assert (Hshape : exists out,
      match fst (Reservation.validate_dates ci co) with
      | Some _ =>
          match reservations_of rt d with
          | Ok rs =>
              match rs !! rid with
              | Some _ => (Ok None, d)
              | None => (Ok None, d)
              end
          | Raise e => (Raise e, d)
          end
      | None => (Ok None, d)
      end = (out, d) /\ forall res : Reservation.t, out <> Ok (Some res)).
    { destruct (fst _); [|by eexists].
      destruct (reservations_of rt d) as [rs|]; [|by eexists].
      destruct (rs !! rid); by eexists. }
    destruct Hshape as (out & Hout & Hnone).
    rewrite Hcs, Hcid, Hout. done.
Qed.

Lemma create_checks_in_order_witness :
  customers_of example_runtime (stored {[ "H1" := grand ]} ∅ ∅) = Ok ∅
  /\ snd (Reservation.create example_runtime "R2" "C999" "H1" "2025-01-10" "2025-01-15"
            (stored {[ "H1" := grand ]} ∅ ∅))
     = stored {[ "H1" := grand ]} ∅ ∅
  /\ forall res,
       fst (Reservation.create example_runtime "R2" "C999" "H1" "2025-01-10" "2025-01-15"
              (stored {[ "H1" := grand ]} ∅ ∅))
       <> Ok (Some res).
Proof.
  split; [done|].
  by apply (create_checks_in_order example_runtime "R2" "C999" "H1"
              "2025-01-10" "2025-01-15" (stored {[ "H1" := grand ]} ∅ ∅)) with (cs := ∅).
Defined.

(** ** Dates *)

Lemma digit_range c n : Strptime.digit c = Some n -> 0 <= n <= 9.
Proof.
  unfold Strptime.digit. destruct (andb _ _) eqn:H; [|done].
  intros [= <-]. apply andb_prop in H as [?%Z.leb_le ?%Z.leb_le]. lia.
Qed.

Lemma in_range_spec lo hi c n : Strptime.in_range lo hi c = Some n -> lo <= n <= hi.
Proof.
  unfold Strptime.in_range. destruct (Strptime.digit c); [|done].
  destruct (andb _ _) eqn:H; [|done].
  intros [= <-]. apply andb_prop in H as [?%Z.leb_le ?%Z.leb_le]. lia.
Qed.

Ltac range_facts :=
  repeat match goal with
         | H : Strptime.in_range _ _ _ = Some _ |- _ => apply in_range_spec in H
         | H : Strptime.digit _ = Some _ |- _ => apply digit_range in H
         end.

Lemma year4_range a b c d y : Strptime.year4 a b c d = Some y -> 0 <= y <= 9999.
Proof.
  unfold Strptime.year4. intros H. repeat case_match; simplify_eq. range_facts. lia.
Qed.

Lemma month_then_dash_range s m rest :
  Strptime.month_then_dash s = Some (m, rest) -> 1 <= m <= 12.
Proof.
  unfold Strptime.month_then_dash. intros H.
  repeat case_match; simplify_eq; range_facts; lia.
Qed.

Lemma day_to_end_range s dd : Strptime.day_to_end s = Some dd -> 1 <= dd <= 31.
Proof.
  unfold Strptime.day_to_end. intros H.
  repeat case_match; simplify_eq; range_facts; lia.
Qed.

(** What [strptime] returns is a date of the calendar. *)
Lemma strptime_calendar_date s x : Strptime.strptime s = Some x -> calendar_date x.
Proof.
  unfold Strptime.strptime. intros H.
  repeat case_match; simplify_eq.
  match goal with H : andb _ _ = true |- _ =>
    apply andb_prop in H as [?%Z.leb_le ?%Z.leb_le] end.
  repeat match goal with
         | H : Strptime.year4 _ _ _ _ = Some _ |- _ => apply year4_range in H
         | H : Strptime.month_then_dash _ = Some _ |- _ => apply month_then_dash_range in H
         | H : Strptime.day_to_end _ = Some _ |- _ => apply day_to_end_range in H
         end.
  unfold calendar_date. simpl. lia.
Qed.

Lemma le_before x y : Strptime.le y x = false <-> before x y.
Proof.
  unfold Strptime.le, before. destruct x as [y1 m1 d1], y as [y2 m2 d2]. simpl.
  rewrite !orb_false_iff, !andb_false_iff, !orb_false_iff, !andb_false_iff.
  rewrite !Z.ltb_ge, !Z.eqb_neq, !Z.leb_gt. lia.
Qed.

Lemma not_before x y : ~ before x y <-> y = x \/ before y x.
Proof.
  unfold before. destruct x as [y1 m1 d1], y as [y2 m2 d2]. simpl. split.
  - intros H.
    destruct (decide (y2 = y1 /\ m2 = m1 /\ d2 = d1)) as [(-> & -> & ->)|Hne];
      [by left | right; lia].
  - intros [[= -> -> ->]|H]; lia.
Qed.

(** C6. [validate_dates] fails when either string is not a date that
    [strptime] reads in the format [%Y-%m-%d], fails when the check-out day is
    the check-in day or an earlier one, and otherwise returns the two parsed
    dates, which are dates of the calendar. *)
Theorem validate_dates_spec ci co :
  (Strptime.strptime ci = None \/ Strptime.strptime co = None ->
   Reservation.validate_dates ci co = (None, None))
  /\ (forall a b,
        Strptime.strptime ci = Some a ->
        Strptime.strptime co = Some b ->
        calendar_date a /\ calendar_date b
        /\ (b = a \/ before b a -> Reservation.validate_dates ci co = (None, None))
        /\ (before a b -> Reservation.validate_dates ci co = (Some a, Some b)))
  /\ Reservation.validate_dates "2025-01-10" "2025-01-10" = (None, None)
  /\ Reservation.validate_dates "2025-01-10" "2025-01-15"
     = (Some {| year := 2025; month := 1; day := 10 |},
        Some {| year := 2025; month := 1; day := 15 |}).
Proof.
  unfold Reservation.validate_dates at 1 2 3. repeat apply conj; [| |done|done].
  - intros [->| ->]; [done|]. by destruct (Strptime.strptime ci).
  - intros a b Ha Hb. rewrite Ha, Hb.
    split; [by eapply strptime_calendar_date|].
    split; [by eapply strptime_calendar_date|]. split.
    + intros Hle%not_before. destruct (Strptime.le b a) eqn:Hcmp; [done|].
      by apply le_before in Hcmp.
    + intros Hlt%le_before. by rewrite Hlt.
Qed.

Lemma validate_dates_spec_witness :
  Strptime.strptime "10-01-2025" = None
  /\ Reservation.validate_dates "10-01-2025" "2025-01-15" = (None, None).
Proof.
  split; [done|].
  apply (proj1 (validate_dates_spec "10-01-2025" "2025-01-15")). by left.
Defined.

(** ** The balance of rooms and active reservations *)

Lemma active_count_insert rs rid res h :
  active_count (<[rid := res]> rs) h
  = active_count (delete rid rs) h + (if decide (active_at h (rid, res)) then 1 else 0).
Proof.
  unfold active_count. rewrite map_filter_insert. case_decide.
  - rewrite <-insert_delete_eq, <-map_filter_delete.
    rewrite map_size_insert_None; [lia|].
    apply map_lookup_filter_None. left. apply lookup_delete_eq.
  - lia.
Qed.

Lemma active_count_lookup rs rid res h :
  rs !! rid = Some res ->
  active_count rs h
  = active_count (delete rid rs) h + (if decide (active_at h (rid, res)) then 1 else 0).
Proof.
  intros Hrid. rewrite <-(insert_id rs rid res Hrid) at 1.
  apply active_count_insert.
Qed.

Lemma active_count_nonneg rs h : 0 <= active_count rs h.
Proof. unfold active_count. lia. Qed.

Lemma existsb_remove_first_ne rid rid' l :
  rid' <> rid ->
  existsb (eq_str rid') (remove_first rid l) = existsb (eq_str rid') l.
Proof.
  intros Hne. induction l as [|v l IH]; simpl; [done|].
  destruct (eq_str rid v) eqn:Hv; simpl; [|by rewrite IH].
  apply eq_str_true in Hv as ->. simpl.
  by destruct (String.eqb_spec rid' rid).
Qed.

Lemma accessible_dump recs f : accessible f -> accessible (dump recs f).
Proof. intros [Hw Hr]. unfold dump. rewrite Hw. by split. Qed.

Lemma hotels_of_set_reservations rt g d :
  hotels_of rt (set_reservations g d) = hotels_of rt d.
Proof. done. Qed.

Lemma reservations_of_set_hotels rt g d :
  reservations_of rt (set_hotels g d) = reservations_of rt d.
Proof. done. Qed.

Lemma hotels_of_saved_accessible rt hs d :
  accessible (hotels_json d) ->
  hotels_of rt (set_hotels (save_file Hotel.to_dict hs) d) = Ok hs.
Proof. intros [Hw Hr]. by rewrite hotels_of_saved, Hw, Hr. Qed.

Lemma reservations_of_saved_accessible rt rs d :
  accessible (reservations_json d) ->
  reservations_of rt (set_reservations (save_file Reservation.to_dict rs) d) = Ok rs.
Proof. intros [Hw Hr]. by rewrite reservations_of_saved, Hw, Hr. Qed.

Lemma create_keeps_invariant rt h rid cid hid ci co d :
  lifecycle_invariant rt d h ->
  succeeded rt (ReservationCreate rid cid hid ci co) d = true ->
  lifecycle_invariant rt (after rt (ReservationCreate rid cid hid ci co) d) h.
Proof.
  intros (Hah & Har & hs & rs & Hhs & Hrs & Hbal & Htrack). simpl.
  rewrite reservation_create_run.
  destruct (fst (Reservation.validate_dates ci co)); [|done].
  rewrite Hrs. destruct (rs !! rid) eqn:Hrid; [done|].
  destruct (customers_of rt d) as [cs|]; [|done]. destruct (cs !! cid); [|done].
  rewrite reserve_room_run, Hhs.
  destruct (hs !! hid) as [hot0|] eqn:Hhid; [|done].
  destruct (Hotel.available_rooms hot0 <=? 0)%Z eqn:Hav; [done|].
  intros _. simpl.
  split; [by apply accessible_dump|]. split; [by apply accessible_dump|].
  exists (<[hid := reserved hot0 rid]> hs), (<[rid := booking rid cid hid ci co]> rs).
  split; [by rewrite hotels_of_set_reservations, hotels_of_saved_accessible|].
  split; [by rewrite reservations_of_saved_accessible|].
  split.
  - intros hot' Hhot'. rewrite active_count_insert, delete_id by done.
    destruct (decide (hid = h)) as [->|Hne].
    + rewrite lookup_insert_eq in Hhot'. injection Hhot' as <-.
      rewrite decide_True by done. specialize (Hbal _ Hhid). simpl. lia.
    + rewrite lookup_insert_ne in Hhot' by done.
      rewrite decide_False by (by intros [? _]). specialize (Hbal _ Hhot'). lia.
  - intros hot' rid' res' Hhot' Hres' Hat.
    destruct (decide (rid = rid')) as [<-|Hrne].
    + rewrite lookup_insert_eq in Hres'. injection Hres' as <-. simpl in Hat. subst h.
      rewrite lookup_insert_eq in Hhot'. injection Hhot' as <-.
      left. split; [done|]. simpl. rewrite existsb_app. simpl.
      by rewrite String.eqb_refl, orb_true_r.
    + rewrite lookup_insert_ne in Hres' by done.
      destruct (decide (hid = h)) as [->|Hne].
      * rewrite lookup_insert_eq in Hhot'. injection Hhot' as <-.
        destruct (Htrack _ _ _ Hhid Hres' Hat) as [[Hst Hin]|Hst]; [|by right].
        left. split; [done|]. simpl. by rewrite existsb_app, Hin.
      * rewrite lookup_insert_ne in Hhot' by done. by eapply Htrack.
Qed.

Lemma cancel_keeps_invariant rt h rid d :
  lifecycle_invariant rt d h ->
  succeeded rt (ReservationCancel rid) d = true ->
  lifecycle_invariant rt (after rt (ReservationCancel rid) d) h.
Proof.
  intros (Hah & Har & hs & rs & Hhs & Hrs & Hbal & Htrack). simpl.
  rewrite reservation_cancel_run, Hrs.
  destruct (rs !! rid) as [res|] eqn:Hrid; [|done].
  destruct (eq_str "cancelled" (Reservation.status res)) eqn:Hst; [done|].
  assert (Hnot : Reservation.status res <> PStr "cancelled").
  { intros Heq%eq_str_true. congruence. }
  assert (Hcancelled : forall k, ~ active_at k (rid, cancelled res)).
  { by intros k [_ ?]. }
  rewrite cancel_reservation_run, Hhs.
  destruct (hs !! Reservation.hotel_id res) as [hot0|] eqn:Hhid.
  - destruct (existsb (eq_str rid) (Hotel.reservations hot0)) eqn:Hin; intros _; simpl.
    + split; [by apply accessible_dump|]. split; [by apply accessible_dump|].
      exists (<[Reservation.hotel_id res := released hot0 rid]> hs), (<[rid := cancelled res]> rs).
      split; [by rewrite hotels_of_set_reservations, hotels_of_saved_accessible|].
      split; [by rewrite reservations_of_saved_accessible|].
      split.
      * intros hot' Hhot'.
        rewrite active_count_insert, decide_False by apply Hcancelled.
        destruct (decide (Reservation.hotel_id res = h)) as [Heq|Hne].
        -- rewrite Heq, lookup_insert_eq in Hhot'. injection Hhot' as <-.
           rewrite Heq in Hhid. specialize (Hbal _ Hhid).
           rewrite (active_count_lookup _ _ _ _ Hrid) in Hbal.
           destruct (Htrack _ _ _ Hhid Hrid Heq) as [[Hact _]|?]; [|done].
           rewrite decide_True in Hbal by (split; [done | by apply eq_str_true]).
           pose proof (active_count_nonneg (delete rid rs) h). simpl. lia.
        -- rewrite lookup_insert_ne in Hhot' by done. specialize (Hbal _ Hhot').
           rewrite (active_count_lookup _ _ _ _ Hrid) in Hbal.
           rewrite decide_False in Hbal by (by intros [? _]). lia.
      * intros hot' rid' res' Hhot' Hres' Hat.
        destruct (decide (rid = rid')) as [<-|Hrne].
        -- rewrite lookup_insert_eq in Hres'. injection Hres' as <-. by right.
        -- rewrite lookup_insert_ne in Hres' by done.
           destruct (decide (Reservation.hotel_id res = h)) as [Heq|Hne].
           ++ rewrite Heq, lookup_insert_eq in Hhot'. injection Hhot' as <-.
              rewrite Heq in Hhid.
              destruct (Htrack _ _ _ Hhid Hres' Hat) as [[Hact Hl]|?]; [|by right].
              left. split; [done|]. simpl.
              by rewrite existsb_remove_first_ne.
           ++ rewrite lookup_insert_ne in Hhot' by done. by eapply Htrack.
    + split; [done|]. split; [by apply accessible_dump|].
      exists hs, (<[rid := cancelled res]> rs).
      split; [done|]. split; [by rewrite reservations_of_saved_accessible|].
      split.
      * intros hot' Hhot'.
        rewrite active_count_insert, decide_False by apply Hcancelled.
        specialize (Hbal _ Hhot'). rewrite (active_count_lookup _ _ _ _ Hrid) in Hbal.
        destruct (decide (Reservation.hotel_id res = h)) as [Heq|Hne].
        -- rewrite Heq, Hhot' in Hhid. injection Hhid as ->.
           destruct (Htrack _ _ _ Hhot' Hrid Heq) as [[_ Hl]|?]; [congruence | done].
        -- rewrite decide_False in Hbal by (by intros [? _]). lia.
      * intros hot' rid' res' Hhot' Hres' Hat.
        destruct (decide (rid = rid')) as [<-|Hrne].
        -- rewrite lookup_insert_eq in Hres'. injection Hres' as <-. by right.
        -- rewrite lookup_insert_ne in Hres' by done. by eapply Htrack.
  - intros _. simpl.
    split; [done|]. split; [by apply accessible_dump|].
    exists hs, (<[rid := cancelled res]> rs).
    split; [done|]. split; [by rewrite reservations_of_saved_accessible|].
    split.
    + intros hot' Hhot'.
      rewrite active_count_insert, decide_False by apply Hcancelled.
      specialize (Hbal _ Hhot'). rewrite (active_count_lookup _ _ _ _ Hrid) in Hbal.
      rewrite decide_False in Hbal; [lia|]. intros [Heq _]. simpl in Heq. congruence.
    + intros hot' rid' res' Hhot' Hres' Hat.
      destruct (decide (rid = rid')) as [<-|Hrne].
      * rewrite lookup_insert_eq in Hres'. injection Hres' as <-. by right.
      * rewrite lookup_insert_ne in Hres' by done. by eapply Htrack.
Qed.

Lemma after_successes_keep_invariant rt h cs d d' :
  lifecycle_invariant rt d h ->
  after_successes rt cs d = Some d' ->
  lifecycle_invariant rt d' h.
Proof.
  revert d. induction cs as [|c cs IH]; simpl; intros d Hinv Hrun.
  - by injection Hrun as <-.
  - destruct (succeeded rt c d) eqn:Hok; [|done].
    apply (IH (after rt c d)); [|done].
    destruct c; try done.
    + by apply create_keeps_invariant.
    + by apply cancel_keeps_invariant.
Qed.

(** C1, with the precondition the code needs. For every hotel [h]: if the
    hotels file and the reservations file accept reads and writes, the rooms
    of [h] balance, and the ledger of [h] agrees with the reservations (each
    reservation naming [h] is cancelled, or active and listed), then after any
    sequence of successful [Reservation.create] and [Reservation.cancel] the
    rooms of [h] balance again, and the ledger still agrees. *)
Theorem balance_after_successes rt h cs d d' :
  accessible (hotels_json d) ->
  accessible (reservations_json d) ->
  balanced rt d h ->
  ledger_tracks rt d h ->
  after_successes rt cs d = Some d' ->
  balanced rt d' h /\ ledger_tracks rt d' h.
Proof.
  intros Hah Har (hs & rs & Hhs & Hrs & Hbal) (hs' & rs' & Hhs' & Hrs' & Htrack) Hrun.
  rewrite Hhs in Hhs'. injection Hhs' as <-. rewrite Hrs in Hrs'. injection Hrs' as <-.
  assert (Hinv : lifecycle_invariant rt d h).
  { split; [done|]. split; [done|]. by exists hs, rs. }
  destruct (after_successes_keep_invariant _ _ _ _ _ Hinv Hrun)
    as (_ & _ & hs1 & rs1 & Hhs1 & Hrs1 & Hbal1 & Htrack1).
  split; by exists hs1, rs1.
Qed.

Lemma balance_after_successes_witness :
  balanced example_runtime
    (stored {[ "H1" := grand ]} {[ "C1" := alice ]} {[ "R1" := stay "active" ]}) "H1"
  /\ ledger_tracks example_runtime
       (stored {[ "H1" := grand ]} {[ "C1" := alice ]} {[ "R1" := stay "active" ]}) "H1"
  /\ exists d',
       after_successes example_runtime
         [ ReservationCreate "R2" "C1" "H1" "2025-02-01" "2025-02-03";
           ReservationCancel "R1" ]
         (stored {[ "H1" := grand ]} {[ "C1" := alice ]} {[ "R1" := stay "active" ]})
       = Some d'
       /\ balanced example_runtime d' "H1".
Proof.
  assert (Hb : balanced example_runtime
                 (stored {[ "H1" := grand ]} {[ "C1" := alice ]} {[ "R1" := stay "active" ]})
                 "H1").
  { exists {[ "H1" := grand ]}, {[ "R1" := stay "active" ]}.
    split; [done|]. split; [done|]. intros hot [= <-]. reflexivity. }
  assert (Ht : ledger_tracks example_runtime
                 (stored {[ "H1" := grand ]} {[ "C1" := alice ]} {[ "R1" := stay "active" ]})
                 "H1").
  { exists {[ "H1" := grand ]}, {[ "R1" := stay "active" ]}.
    split; [done|]. split; [done|]. intros hot rid res [= <-] Hres _.
    apply lookup_singleton_Some in Hres as [<- <-]. by left. }
  split; [done|]. split; [done|].
  eexists. split; [reflexivity|].
  eapply (balance_after_successes example_runtime "H1"
            [ ReservationCreate "R2" "C1" "H1" "2025-02-01" "2025-02-03";
              ReservationCancel "R1" ]
            (stored {[ "H1" := grand ]} {[ "C1" := alice ]} {[ "R1" := stay "active" ]}));
    [by split | by split | done | done | reflexivity].
Defined.

(** C1 as stated fails: the counts of a hotel can balance while its ledger
    does not list the active reservation; the release then fails, [cancel]
    succeeds all the same, and the counts no longer balance. *)
Lemma balance_lost_by_unlisted_cancel :
  (forall rt,
     balanced rt
       (stored {[ "H1" := unlisted ]} {[ "C1" := alice ]} {[ "R1" := stay "active" ]}) "H1")
  /\ (forall rt,
        exists d',
          after_successes rt [ ReservationCancel "R1" ]
            (stored {[ "H1" := unlisted ]} {[ "C1" := alice ]} {[ "R1" := stay "active" ]})
          = Some d'
          /\ ~ balanced rt d' "H1").
Proof.
  split.
  - intros rt. exists {[ "H1" := unlisted ]}, {[ "R1" := stay "active" ]}.
    split; [done|]. split; [done|]. intros hot [= <-]. reflexivity.
  - intros rt. eexists. split; [reflexivity|].
    intros (hs & rs & Hhs & Hrs & Hbal).
    injection Hhs as <-. injection Hrs as <-.
    specialize (Hbal unlisted eq_refl). vm_compute in Hbal. done.
Qed.

(** * Further properties of the three classes *)

(** ** Hotel.create, Hotel.get, Hotel.delete *)

Lemma hotel_get_run rt h d :
  fst (Hotel.get rt h d) =
    match hotels_of rt d with
    | Ok hs => Ok (hs !! h)
    | Raise e => Raise e
    end.
Proof.
  unfold Hotel.get, hotels_of, Hotel.load_all, bind. simpl.
  by destruct (load_file _ _).
Qed.

(** X1. [Hotel.create] with an id that no hotel has, a rating [float] accepts
    and a room count [int] accepts, on a hotels file that takes the write:
    the hotel returned has every room available and an empty ledger, [get]
    returns it afterwards, the other hotels are the ones loaded before, and
    the other two files are not touched. *)
Theorem hotel_create_then_get rt h n l r t d hs rating total :
  accessible (hotels_json d) ->
  hotels_of rt d = Ok hs ->
  hs !! h = None ->
  Py.float rt r = Ok rating ->
  Py.int rt t = Ok total ->
  exists d',
    Hotel.create rt h n l r t d = (Ok (Some (opened rt h n l rating total)), d')
    /\ hotels_of rt d' = Ok (<[h := opened rt h n l rating total]> hs)
    /\ fst (Hotel.get rt h d') = Ok (Some (opened rt h n l rating total))
    /\ (forall k, k <> h -> fst (Hotel.get rt k d') = Ok (hs !! k))
    /\ customers_json d' = customers_json d
    /\ reservations_json d' = reservations_json d.
Proof.
  intros Hacc Hhs Hh Hr Ht.
  rewrite hotel_create_run, Hhs, Hh. unfold Hotel.init. rewrite Hr. simpl. rewrite Ht. simpl.
  exists (set_hotels
            (save_file Hotel.to_dict (<[h := opened rt h n l rating total]> hs)) d).
  split; [reflexivity|].
  assert (Hload : hotels_of rt
            (set_hotels (save_file Hotel.to_dict (<[h := opened rt h n l rating total]> hs)) d)
          = Ok (<[h := opened rt h n l rating total]> hs)).
  { by apply hotels_of_saved_accessible. }
  split; [done|]. split; [|split; [|done]].
  - by rewrite hotel_get_run, Hload, lookup_insert_eq.
  - intros k Hk. by rewrite hotel_get_run, Hload, lookup_insert_ne.
Qed.

Lemma hotel_create_then_get_witness :
  exists d',
    Hotel.create example_runtime "H2" (PStr "Small") (PStr "LA") (PInt 3) (PInt 1)
      (hotels_disk {[ "H1" := grand ]})
    = (Ok (Some (opened example_runtime "H2" (PStr "Small") (PStr "LA")
                   (S754_finite false 6755399441055744 (-51)) 1)), d')
    /\ fst (Hotel.get example_runtime "H1" d') = Ok (Some grand).
Proof.
  destruct (hotel_create_then_get example_runtime "H2" (PStr "Small") (PStr "LA")
              (PInt 3) (PInt 1) (hotels_disk {[ "H1" := grand ]}) {[ "H1" := grand ]}
              (S754_finite false 6755399441055744 (-51)) 1)
    as (d' & Hrun & _ & _ & Hothers & _); [by split | done | done | done | done |].
  exists d'. split; [done|]. by rewrite (Hothers "H1").
Defined.

(** X2. [Hotel.create] fails without writing: it returns [None] for an id
    that exists and for a rating or a room count that [float] or [int] reject
    with a [ValueError] or a [TypeError]; an [OverflowError] of the conversion
    is not handled and leaves [create]; and whenever [create] does not return
    a hotel the three files are as they were. *)
Theorem hotel_create_failures rt h n l r t d :
  (forall hs hot, hotels_of rt d = Ok hs -> hs !! h = Some hot ->
     Hotel.create rt h n l r t d = (Ok None, d))
  /\ (forall hs e, hotels_of rt d = Ok hs -> hs !! h = None ->
        Hotel.init rt (PStr h) n l r t = Raise e ->
        Hotel.create rt h n l r t d
        = (match e with ValueError | TypeError => Ok None | _ => Raise e end, d))
  /\ (forall e, Py.float rt r = Raise e -> Hotel.init rt (PStr h) n l r t = Raise e)
  /\ (forall x e, Py.float rt r = Ok x -> Py.int rt t = Raise e ->
        Hotel.init rt (PStr h) n l r t = Raise e)
  /\ ((forall hot, fst (Hotel.create rt h n l r t d) <> Ok (Some hot)) ->
      snd (Hotel.create rt h n l r t d) = d).
Proof.
  rewrite hotel_create_run. repeat apply conj.
  - by intros hs hot -> ->.
  - intros hs e -> -> ->. by destruct e.
  - unfold Hotel.init. by intros e ->.
  - unfold Hotel.init. by intros x e -> ->.
  - destruct (hotels_of rt d) as [hs|]; [|done].
    destruct (hs !! h); [done|].
    destruct (Hotel.init _ _ _ _ _ _) as [hot|[]]; try done.
    intros Hnone. by destruct (Hnone hot).
Qed.

Lemma hotel_create_failures_witness :
  Hotel.create example_runtime "H1" (PStr "Other") (PStr "LA") (PInt 3) (PInt 50)
    (hotels_disk {[ "H1" := grand ]})
  = (Ok None, hotels_disk {[ "H1" := grand ]}).
Proof.
  by apply (proj1 (hotel_create_failures example_runtime "H1" (PStr "Other") (PStr "LA")
                     (PInt 3) (PInt 50) (hotels_disk {[ "H1" := grand ]}))
              {[ "H1" := grand ]} grand).
Defined.

(** X3. [Hotel.delete] of a hotel of the store, on a hotels file that takes
    the write, returns [True]; afterwards [get] finds no such hotel, every
    other hotel is as it was, and the reservations file is not touched: the
    reservations that name the hotel stay.  For an unknown id it returns
    [False] and writes nothing. *)
Theorem hotel_delete_then_get rt h d hs :
  accessible (hotels_json d) ->
  hotels_of rt d = Ok hs ->
  (forall hot, hs !! h = Some hot ->
     exists d',
       Hotel.delete rt h d = (Ok true, d')
       /\ hotels_of rt d' = Ok (delete h hs)
       /\ fst (Hotel.get rt h d') = Ok None
       /\ (forall k, k <> h -> fst (Hotel.get rt k d') = Ok (hs !! k))
       /\ reservations_json d' = reservations_json d
       /\ customers_json d' = customers_json d)
  /\ (hs !! h = None -> Hotel.delete rt h d = (Ok false, d)).
Proof.
  intros Hacc Hhs. rewrite hotel_delete_run, Hhs. split.
  - intros hot ->. eexists. split; [reflexivity|].
    assert (Hload : hotels_of rt (set_hotels (save_file Hotel.to_dict (delete h hs)) d)
                    = Ok (delete h hs)) by by apply hotels_of_saved_accessible.
    split; [done|]. split; [|split; [|done]].
    + by rewrite hotel_get_run, Hload, lookup_delete_eq.
    + intros k Hk. by rewrite hotel_get_run, Hload, lookup_delete_ne.
  - by intros ->.
Qed.

Lemma hotel_delete_then_get_witness :
  exists d',
    Hotel.delete example_runtime "H1"
      (stored {[ "H1" := grand ]} {[ "C1" := alice ]} {[ "R1" := stay "active" ]})
    = (Ok true, d')
    /\ fst (Hotel.get example_runtime "H1" d') = Ok None
    /\ fst (Reservation.get example_runtime "R1" d') = Ok (Some (stay "active")).
Proof.
  destruct (hotel_delete_then_get example_runtime "H1"
              (stored {[ "H1" := grand ]} {[ "C1" := alice ]} {[ "R1" := stay "active" ]})
              {[ "H1" := grand ]}) as [Hdel _]; [by split | done |].
  destruct (Hdel grand) as (d' & Hrun & _ & Hget & _ & Hres & _); [done|].
  exists d'. split; [done|]. split; [done|].
  unfold Reservation.get, Reservation.load_all, bind. simpl. by rewrite Hres.
Defined.

(** ** Hotel.modify *)

(** A hotel loaded after [modify] is the hotel loaded before, or it is the
    modified one, read back from the attributes [modify] saved. *)
Lemma hotels_after_modify rt h kwargs d hs hs' k hot hot' :
  hotels_of rt d = Ok hs ->
  hs !! k = Some hot ->
  hotels_of rt (snd (Hotel.modify rt h kwargs d)) = Ok hs' ->
  hs' !! k = Some hot' ->
  hot' = hot
  \/ (k = h /\ Hotel.from_dict rt (PDict (modified hot kwargs)) = Ok (Some hot')).
Proof.
  intros Hhs Hk Hhs' Hk'. rewrite hotel_modify_run, Hhs in Hhs'.
  destruct (hs !! h) as [hot0|] eqn:Hh; simpl in Hhs'; [|left; congruence].
  unfold hotels_of in Hhs'. simpl in Hhs'.
  destruct (read_only (hotels_json d)) eqn:Hw.
  { unfold dump in Hhs'. rewrite Hw in Hhs'. unfold hotels_of in Hhs. simpl in Hhs.
    left. congruence. }
  destruct (unreadable (hotels_json d)) eqn:Hr.
  { rewrite load_file_unreadable in Hhs'; [|by unfold dump; rewrite Hw].
    injection Hhs' as <-. by rewrite lookup_empty in Hk'. }
  rewrite (load_file_dumped _ _ _ _ k (conj Hw Hr) Hhs') in Hk'.
  destruct (decide (h = k)) as [->|Hne].
  - rewrite lookup_insert_eq in Hk'.
    destruct (Hotel.from_dict rt _) as [[hot1|]|] eqn:Hfrom; try done.
    injection Hk' as ->. right. split; [done|]. congruence.
  - rewrite lookup_insert_ne, lookup_fmap, Hk in Hk' by done.
    change (Hotel.to_dict <$> Some hot) with (Some (Hotel.to_dict hot)) in Hk'.
    cbv beta iota in Hk'. rewrite hotel_from_to_dict in Hk'. left. congruence.
Qed.

Lemma assoc_modified_not_allowed hot kwargs key :
  Hotel.allowed key = false ->
  Py.assoc key (modified hot kwargs) = Py.assoc key (Hotel.vars hot).
Proof.
  intros Hkey. unfold modified. generalize (Hotel.vars hot). 
  induction kwargs as [|[k v] kwargs IH]; simpl; intros o; [done|].
  rewrite IH. destruct (Hotel.allowed k) eqn:Hk; [|done].
  apply assoc_setattr_ne. intros ->. congruence.
Qed.

Lemma hotel_from_dict_ledger rt o hot i a l :
  Hotel.from_dict rt (PDict o) = Ok (Some hot) ->
  Py.assoc "hotel_id" o = Some (PStr i) ->
  Py.assoc "available_rooms" o = Some (PInt a) ->
  Py.assoc "reservations" o = Some (PList l) ->
  Hotel.hotel_id hot = i /\ Hotel.available_rooms hot = a /\ Hotel.reservations hot = l.
Proof.
  unfold Hotel.from_dict, Py.getitem, Py.get, Hotel.init. intros H Hi Ha Hl.
  rewrite Hi, Ha, Hl in H. simpl in H.
  destruct (Py.assoc "name" o); simpl in H; [|done].
  destruct (Py.assoc "location" o); simpl in H; [|done].
  destruct (Py.assoc "rating" o) as [a_rating|]; simpl in H; [|done].
  destruct (Py.assoc "total_rooms" o) as [a_total|]; simpl in H; [|done].
  destruct (Py.float rt a_rating); simpl in H; [|by destruct e].
  destruct (Py.int rt a_total); simpl in H; [|by destruct e].
  by injection H as <-.
Qed.

(** X4. [Hotel.modify] cannot set the ledger: whatever keywords it is given,
    [available_rooms] and [reservations] among them, a hotel that loads
    afterwards has the [hotel_id], the [available_rooms] and the
    [reservations] it had. *)
Theorem modify_keeps_ledger rt h kwargs d hs hs' k hot hot' :
  hotels_of rt d = Ok hs ->
  hs !! k = Some hot ->
  hotels_of rt (snd (Hotel.modify rt h kwargs d)) = Ok hs' ->
  hs' !! k = Some hot' ->
  Hotel.hotel_id hot' = Hotel.hotel_id hot
  /\ Hotel.available_rooms hot' = Hotel.available_rooms hot
  /\ Hotel.reservations hot' = Hotel.reservations hot.
Proof.
  intros Hhs Hk Hhs' Hk'.
  destruct (hotels_after_modify _ _ _ _ _ _ _ _ _ Hhs Hk Hhs' Hk') as [->|[_ Hfrom]];
    [done|].
  apply (hotel_from_dict_ledger _ _ _ _ _ _ Hfrom);
    by rewrite assoc_modified_not_allowed.
Qed.

Lemma modify_keeps_ledger_witness :
  exists hs' hot',
    hotels_of example_runtime
      (snd (Hotel.modify example_runtime "H1"
              [("available_rooms", PInt 99); ("name", PStr "Plaza")]
              (hotels_disk {[ "H1" := grand ]}))) = Ok hs'
    /\ hs' !! "H1" = Some hot'
    /\ Hotel.name hot' = "Plaza"
    /\ Hotel.hotel_id hot' = "H1"
    /\ Hotel.available_rooms hot' = 1
    /\ Hotel.reservations hot' = [PStr "R1"].
Proof.
  eexists. eexists. split; [reflexivity|]. split; [reflexivity|]. split; [reflexivity|].
  eapply (modify_keeps_ledger example_runtime "H1"
            [("available_rooms", PInt 99); ("name", PStr "Plaza")]
            (hotels_disk {[ "H1" := grand ]}) {[ "H1" := grand ]} _ "H1" grand);
    reflexivity.
Defined.





Lemma hotel_from_dict_bad_rating rt hot v e :
  Py.float rt v = Raise e -> handled e = true ->
  Hotel.from_dict rt (PDict (modified hot [("rating", v)])) = Ok None.
Proof.
  intros Hv He. destruct hot. unfold Hotel.from_dict, Hotel.init. simpl.
  rewrite Hv. simpl. by rewrite He.
Qed.

Lemma hotel_from_dict_bad_total_rooms rt hot v e :
  Py.int rt v = Raise e -> handled e = true ->
  Hotel.from_dict rt (PDict (modified hot [("total_rooms", v)])) = Ok None.
Proof.
  intros Hv He. destruct hot. unfold Hotel.from_dict, Hotel.init. simpl.
  rewrite Hv. simpl. by rewrite He.
Qed.

(** Saving one record that [from_dict] skips beside the hotels loaded: the
    next load returns the other hotels only. *)
Lemma hotels_of_dumped_skipped rt d hs h bad :
  accessible (hotels_json d) ->
  Hotel.from_dict rt bad = Ok None ->
  hotels_of rt (set_hotels (dump (<[h := bad]> (Hotel.to_dict <$> hs))) d)
  = Ok (delete h hs).
Proof.
  intros Hacc Hbad. unfold hotels_of. simpl.
  set (recs := <[h := bad]> (Hotel.to_dict <$> hs)).
  assert (Hall : Forall (fun kv => exists o, Hotel.from_dict rt kv.2 = Ok o)
                   (map_to_list recs)).
  { apply Forall_forall. intros [k v] Hin%elem_of_map_to_list. simpl.
    unfold recs in Hin. destruct (decide (h = k)) as [<-|Hne].
    - rewrite lookup_insert_eq in Hin. injection Hin as <-. by eexists.
    - rewrite lookup_insert_ne, lookup_fmap in Hin by done.
      destruct (hs !! k); [|done]. injection Hin as <-.
      rewrite hotel_from_to_dict. by eexists. }
  destruct (load_records_total _ _ ∅ Hall) as [m Hm].
  assert (Hload : load_file (Hotel.from_dict rt) (dump recs (hotels_json d)) = Ok m).
  { destruct Hacc as [Hw Hr]. unfold dump, load_file. rewrite Hw. simpl. by rewrite Hr. }
  rewrite Hload. f_equal. apply map_eq. intros k.
  rewrite (load_file_dumped _ _ _ _ k Hacc Hload). unfold recs.
  destruct (decide (h = k)) as [<-|Hne].
  - by rewrite lookup_insert_eq, Hbad, lookup_delete_eq.
  - rewrite lookup_insert_ne, lookup_fmap, lookup_delete_ne by done.
    destruct (hs !! k) as [hot|]; [|done].
    change (Hotel.to_dict <$> Some hot) with (Some (Hotel.to_dict hot)).
    cbv beta iota. by rewrite hotel_from_to_dict.
Qed.

(** X6. [Hotel.modify] stores a value without converting it, so it can lose
    the hotel: given a [rating] that [float] rejects, or a [total_rooms] that
    [int] rejects, with a [ValueError] or a [TypeError], it returns [True],
    and the record it saved is skipped by the next load: [get] finds no such
    hotel any more, the other hotels being as they were. *)
Theorem modify_can_lose_hotel rt h key v d hs hot e :
  accessible (hotels_json d) ->
  hotels_of rt d = Ok hs ->
  hs !! h = Some hot ->
  (key = "rating" /\ Py.float rt v = Raise e
   \/ key = "total_rooms" /\ Py.int rt v = Raise e) ->
  handled e = true ->
  exists d',
    Hotel.modify rt h [(key, v)] d = (Ok true, d')
    /\ hotels_of rt d' = Ok (delete h hs)
    /\ fst (Hotel.get rt h d') = Ok None.
Proof.
  intros Hacc Hhs Hh Hbad He. rewrite hotel_modify_run, Hhs, Hh.
  eexists. split; [reflexivity|].
  assert (Hskip : Hotel.from_dict rt (PDict (modified hot [(key, v)])) = Ok None).
  { destruct Hbad as [[-> Hv]|[-> Hv]];
      [by eapply hotel_from_dict_bad_rating | by eapply hotel_from_dict_bad_total_rooms]. }
  pose proof (hotels_of_dumped_skipped rt d hs h _ Hacc Hskip) as Hload.
  split; [done|]. by rewrite hotel_get_run, Hload, lookup_delete_eq.
Qed.

Lemma modify_can_lose_hotel_witness :
  fst (Hotel.get example_runtime "H1" (hotels_disk {[ "H1" := grand ]})) = Ok (Some grand)
  /\ exists d',
       Hotel.modify example_runtime "H1" [("rating", PNone)]
         (hotels_disk {[ "H1" := grand ]}) = (Ok true, d')
       /\ hotels_of example_runtime d' = Ok (delete "H1" {[ "H1" := grand ]})
       /\ fst (Hotel.get example_runtime "H1" d') = Ok None.
Proof.
  split; [done|].
  apply (modify_can_lose_hotel example_runtime "H1" "rating" PNone
           (hotels_disk {[ "H1" := grand ]}) {[ "H1" := grand ]} grand TypeError);
    [by split | done | done | by left | done].
Defined.

(** ** Hotel.reserve_room and Hotel.cancel_reservation *)

Lemma remove_first_appended rid l :
  existsb (eq_str rid) l = false ->
  remove_first rid (l ++ [PStr rid]) = l.
Proof.
  induction l as [|v l IH]; simpl.
  - by rewrite String.eqb_refl.
  - intros [Hv Hl]%orb_false_elim. rewrite Hv. by rewrite IH.
Qed.

Lemma released_reserved hot rid :
  Hotel.available_rooms hot <= Hotel.total_rooms hot ->
  existsb (eq_str rid) (Hotel.reservations hot) = false ->
  released (reserved hot rid) rid = hot.
Proof.
  intros Hle Hnew. destruct hot as [i n l r t a ids]. unfold released, reserved.
  simpl in *. rewrite remove_first_appended by done. f_equal. lia.
Qed.

(** X7. Reserving a room and releasing it again is a round trip on the
    hotel: for a hotel with a room available, at most [total_rooms] rooms
    available and a ledger that does not hold the reservation id,
    [reserve_room] returns [True], [get] then shows one room fewer and the id
    last in the ledger, [cancel_reservation] of that id returns [True], and
    the hotels loaded afterwards are exactly those loaded at the start. *)
Theorem reserve_then_release rt h rid d hs hot :
  accessible (hotels_json d) ->
  hotels_of rt d = Ok hs ->
  hs !! h = Some hot ->
  0 < Hotel.available_rooms hot <= Hotel.total_rooms hot ->
  existsb (eq_str rid) (Hotel.reservations hot) = false ->
  exists d1 d2,
    Hotel.reserve_room rt h rid d = (Ok true, d1)
    /\ fst (Hotel.get rt h d1) = Ok (Some (reserved hot rid))
    /\ Hotel.available_rooms (reserved hot rid) = Hotel.available_rooms hot - 1
    /\ Hotel.reservations (reserved hot rid) = (Hotel.reservations hot ++ [PStr rid])%list
    /\ Hotel.cancel_reservation rt h rid d1 = (Ok true, d2)
    /\ hotels_of rt d2 = Ok hs.
Proof.
  intros Hacc Hhs Hh [Hpos Hle] Hnew.
  set (d1 := set_hotels (save_file Hotel.to_dict (<[h := reserved hot rid]> hs)) d).
  assert (Hhs1 : hotels_of rt d1 = Ok (<[h := reserved hot rid]> hs))
    by by apply hotels_of_saved_accessible.
  assert (Hacc1 : accessible (hotels_json d1)) by by apply accessible_dump.
  exists d1. eexists. split.
  { rewrite reserve_room_run, Hhs, Hh.
    by destruct (Z.leb_spec (Hotel.available_rooms hot) 0); [lia|]. }
  split; [by rewrite hotel_get_run, Hhs1, lookup_insert_eq|].
  split; [done|]. split; [done|]. split.
  { rewrite cancel_reservation_run, Hhs1, lookup_insert_eq.
    assert (Hin : existsb (eq_str rid) (Hotel.reservations (reserved hot rid)) = true).
    { simpl. rewrite existsb_app. simpl. by rewrite String.eqb_refl, orb_true_r. }
    rewrite Hin. reflexivity. }
  rewrite hotels_of_saved_accessible by done.
  by rewrite released_reserved, insert_insert_eq, insert_id.
Qed.

Lemma reserve_then_release_witness :
  exists d1 d2,
    Hotel.reserve_room example_runtime "H1" "R2" (hotels_disk {[ "H1" := grand ]})
    = (Ok true, d1)
    /\ fst (Hotel.get example_runtime "H1" d1) = Ok (Some (reserved grand "R2"))
    /\ Hotel.available_rooms (reserved grand "R2") = Hotel.available_rooms grand - 1
    /\ Hotel.reservations (reserved grand "R2") = (Hotel.reservations grand ++ [PStr "R2"])%list
    /\ Hotel.cancel_reservation example_runtime "H1" "R2" d1 = (Ok true, d2)
    /\ hotels_of example_runtime d2 = Ok {[ "H1" := grand ]}.
Proof.
  apply (reserve_then_release example_runtime "H1" "R2"
           (hotels_disk {[ "H1" := grand ]}) {[ "H1" := grand ]} grand);
    [by split | done | done | by split | done].
Defined.

Lemma length_remove_first rid l :
  existsb (eq_str rid) l = true ->
  S (length (remove_first rid l)) = length l.
Proof.
  induction l as [|v l IH]; simpl; [done|].
  destruct (eq_str rid v); simpl; [done|]. intros Hl. by rewrite IH.
Qed.

Lemma reserved_counted hot rid : ledger_counted hot -> ledger_counted (reserved hot rid).
Proof. unfold ledger_counted. simpl. rewrite length_app. simpl. lia. Qed.

Lemma released_counted hot rid :
  existsb (eq_str rid) (Hotel.reservations hot) = true ->
  ledger_counted hot -> ledger_counted (released hot rid).
Proof.
  unfold ledger_counted. simpl. intros Hin%length_remove_first Hc. lia.
Qed.

Lemma init_counted rt i n l r t hot :
  Hotel.init rt i n l r t = Ok hot -> ledger_counted hot.
Proof.
  unfold Hotel.init, ledger_counted.
  destruct (Py.float rt r); simpl; [|done].
  destruct (Py.int rt t); simpl; [|done].
  intros [= <-]. simpl. lia.
Qed.

(** A call other than [modify] leaves the hotels file alone or saves hotels
    whose ledgers account for every room, when those it loaded did. *)
Lemma hotels_json_after_counted rt c d hs :
  hotels_of rt d = Ok hs ->
  is_modify c = false ->
  (forall k hot, hs !! k = Some hot -> ledger_counted hot) ->
  hotels_json (after rt c d) = hotels_json d
  \/ exists hs1,
       hotels_json (after rt c d) = save_file Hotel.to_dict hs1 (hotels_json d)
       /\ forall k hot1, hs1 !! k = Some hot1 -> ledger_counted hot1.
Proof.
  intros Hhs Hc Hall.
  assert (Hres : forall h rid,
    hotels_json (snd (Hotel.reserve_room rt h rid d)) = hotels_json d
    \/ exists hs1,
         hotels_json (snd (Hotel.reserve_room rt h rid d))
           = save_file Hotel.to_dict hs1 (hotels_json d)
         /\ forall k hot1, hs1 !! k = Some hot1 -> ledger_counted hot1).
  { intros h rid. rewrite reserve_room_run, Hhs.
    destruct (hs !! h) as [hot0|] eqn:Hh; [|by left].
    destruct (Hotel.available_rooms hot0 <=? 0)%Z; [by left|].
    right. eexists. split; [done|]. intros k hot1 Hk1.
    destruct (decide (h = k)) as [<-|Hne].
    - rewrite lookup_insert_eq in Hk1. injection Hk1 as <-.
      apply reserved_counted. by eapply Hall.
    - rewrite lookup_insert_ne in Hk1 by done. by eapply Hall. }
  assert (Hcan : forall h rid,
    hotels_json (snd (Hotel.cancel_reservation rt h rid d)) = hotels_json d
    \/ exists hs1,
         hotels_json (snd (Hotel.cancel_reservation rt h rid d))
           = save_file Hotel.to_dict hs1 (hotels_json d)
         /\ forall k hot1, hs1 !! k = Some hot1 -> ledger_counted hot1).
  { intros h rid. rewrite cancel_reservation_run, Hhs.
    destruct (hs !! h) as [hot0|] eqn:Hh; [|by left].
    destruct (existsb _ _) eqn:Hin; [|by left].
    right. eexists. split; [done|]. intros k hot1 Hk1.
    destruct (decide (h = k)) as [<-|Hne].
    - rewrite lookup_insert_eq in Hk1. injection Hk1 as <-.
      apply released_counted; [done | by eapply Hall].
    - rewrite lookup_insert_ne in Hk1 by done. by eapply Hall. }
  destruct c as [h n l r t|h|h kwargs|h rid|h rid|c n e p|c|rid cid hid ci co|rid]; simpl.
  - rewrite hotel_create_run, Hhs.
    destruct (hs !! h) as [hot0|] eqn:Hh; [by left|].
    destruct (Hotel.init _ _ _ _ _ _) as [hot0|[]] eqn:Hinit; try by left.
    right. eexists. split; [done|]. intros k hot1 Hk1.
    destruct (decide (h = k)) as [<-|Hne].
    + rewrite lookup_insert_eq in Hk1. injection Hk1 as <-. by eapply init_counted.
    + rewrite lookup_insert_ne in Hk1 by done. by eapply Hall.
  - rewrite hotel_delete_run, Hhs.
    destruct (hs !! h) as [hot0|] eqn:Hh; [|by left].
    right. eexists. split; [done|]. intros k hot1 Hk1.
    apply lookup_delete_Some in Hk1 as [_ Hk1]. by eapply Hall.
  - done.
  - apply Hres.
  - apply Hcan.
  - left. unfold Customer.create, Customer.load_all, bind. simpl.
    destruct (load_file _ _) as [cs|]; [|done]. by destruct (cs !! c).
  - left. unfold Customer.delete, Customer.load_all, bind. simpl.
    destruct (load_file _ _) as [cs|]; [|done]. by destruct (cs !! c).
  - rewrite reservation_create_run.
    destruct (fst _); [|by left].
    destruct (reservations_of rt d) as [rs|]; [|by left].
    destruct (rs !! rid); [by left|].
    destruct (customers_of rt d) as [cs|]; [|by left].
    destruct (cs !! cid); [|by left].
    specialize (Hres hid rid).
    by destruct (Hotel.reserve_room rt hid rid d) as [[[]|] d1].
  - rewrite reservation_cancel_run.
    destruct (reservations_of rt d) as [rs|]; [|by left].
    destruct (rs !! rid) as [res|]; [|by left].
    destruct (eq_str _ _); [by left|].
    specialize (Hcan (Reservation.hotel_id res) rid).
    by destruct (Hotel.cancel_reservation _ _ _ _) as [[|] d1].
Qed.

(** X8. The ledgers account for every room: if in every hotel the rooms
    available and the ids listed add up to the total, they still do after any
    call of the three classes but [Hotel.modify], a hotel newly created
    included; the clamp of [cancel_reservation] never takes effect then. *)
Theorem ledgers_stay_counted rt c d hs hs' k hot' :
  is_modify c = false ->
  hotels_of rt d = Ok hs ->
  (forall k hot, hs !! k = Some hot -> ledger_counted hot) ->
  hotels_of rt (after rt c d) = Ok hs' ->
  hs' !! k = Some hot' ->
  ledger_counted hot'.
Proof.
  intros Hc Hhs Hall Hhs' Hk'.
  destruct (hotels_json_after_counted rt c d hs Hhs Hc Hall) as [Heq|(hs1 & Heq & Hall1)].
  - unfold hotels_of in *. simpl in *. rewrite Heq, Hhs in Hhs'.
    injection Hhs' as <-. by eapply Hall.
  - unfold hotels_of in Hhs'. simpl in Hhs'. rewrite Heq in Hhs'.
    rewrite load_file_saved in Hhs' by apply hotel_from_to_dict.
    unfold hotels_of in Hhs. simpl in Hhs.
    destruct (read_only (hotels_json d)).
    { rewrite Hhs in Hhs'. injection Hhs' as <-. by eapply Hall. }
    destruct (unreadable (hotels_json d)).
    { injection Hhs' as <-. by rewrite lookup_empty in Hk'. }
    injection Hhs' as <-. by eapply Hall1.
Qed.

Lemma ledgers_stay_counted_witness :
  exists hs' hot',
    hotels_of example_runtime
      (after example_runtime (ReservationCancel "R1")
         (stored {[ "H1" := grand ]} {[ "C1" := alice ]} {[ "R1" := stay "active" ]}))
    = Ok hs'
    /\ hs' !! "H1" = Some hot'
    /\ Hotel.available_rooms hot' = 2
    /\ ledger_counted hot'.
Proof.
  eexists. eexists. split; [reflexivity|]. split; [reflexivity|]. split; [reflexivity|].
  eapply (ledgers_stay_counted example_runtime (ReservationCancel "R1")
            (stored {[ "H1" := grand ]} {[ "C1" := alice ]} {[ "R1" := stay "active" ]})
            {[ "H1" := grand ]} _ "H1"); [done | reflexivity | | reflexivity | reflexivity].
  intros k hot [<- <-]%lookup_singleton_Some. reflexivity.
Defined.

(** ** Which files a call writes *)

Lemma reserve_room_frame rt h rid d :
  customers_json (snd (Hotel.reserve_room rt h rid d)) = customers_json d
  /\ reservations_json (snd (Hotel.reserve_room rt h rid d)) = reservations_json d.
Proof.
  rewrite reserve_room_run. destruct (hotels_of rt d) as [hs|]; [|done].
  destruct (hs !! h) as [hot|]; [|done].
  by destruct (Hotel.available_rooms hot <=? 0)%Z.
Qed.

Lemma cancel_reservation_frame rt h rid d :
  customers_json (snd (Hotel.cancel_reservation rt h rid d)) = customers_json d
  /\ reservations_json (snd (Hotel.cancel_reservation rt h rid d)) = reservations_json d.
Proof.
  rewrite cancel_reservation_run. destruct (hotels_of rt d) as [hs|]; [|done].
  destruct (hs !! h) as [hot|]; [|done].
  by destruct (existsb _ _).
Qed.

(** Which files each call leaves as they are. *)
Lemma calls_frame rt c d :
  match class_of c with
  | OfHotel =>
      customers_json (after rt c d) = customers_json d
      /\ reservations_json (after rt c d) = reservations_json d
  | OfCustomer =>
      hotels_json (after rt c d) = hotels_json d
      /\ reservations_json (after rt c d) = reservations_json d
  | OfReservation =>
      customers_json (after rt c d) = customers_json d
  end.
Proof.
  destruct c as [h n l r t|h|h kwargs|h rid|h rid|c n e p|c|rid cid hid ci co|rid]; simpl.
  - rewrite hotel_create_run. destruct (hotels_of rt d) as [hs|]; [|done].
    destruct (hs !! h); [done|]. by destruct (Hotel.init _ _ _ _ _ _) as [hot|[]].
  - rewrite hotel_delete_run. destruct (hotels_of rt d) as [hs|]; [|done].
    by destruct (hs !! h).
  - rewrite hotel_modify_run. destruct (hotels_of rt d) as [hs|]; [|done].
    by destruct (hs !! h).
  - apply reserve_room_frame.
  - apply cancel_reservation_frame.
  - unfold Customer.create, Customer.load_all, bind. simpl.
    destruct (load_file _ _) as [cs|]; [|done]. by destruct (cs !! c).
  - unfold Customer.delete, Customer.load_all, bind. simpl.
    destruct (load_file _ _) as [cs|]; [|done]. by destruct (cs !! c).
  - rewrite reservation_create_run.
    destruct (fst _); [|done].
    destruct (reservations_of rt d) as [rs|]; [|done].
    destruct (rs !! rid); [done|].
    destruct (customers_of rt d) as [cs|]; [|done].
    destruct (cs !! cid); [|done].
    pose proof (proj1 (reserve_room_frame rt hid rid d)) as Hframe.
    by destruct (Hotel.reserve_room rt hid rid d) as [[[]|] d1].
  - rewrite reservation_cancel_run.
    destruct (reservations_of rt d) as [rs|]; [|done].
    destruct (rs !! rid) as [res|]; [|done].
    destruct (eq_str _ _); [done|].
    pose proof (proj1 (cancel_reservation_frame rt (Reservation.hotel_id res) rid d))
      as Hframe.
    by destruct (Hotel.cancel_reservation _ _ _ _) as [[|] d1].
Qed.

(** X9. A call writes the file of its own class only, but for the two calls
    of the reservation lifecycle, which also write the hotels file: the calls
    of [Hotel] leave customers and reservations as they are (deleting a hotel
    cancels nothing), the calls of [Customer] leave hotels and reservations as
    they are, and [Reservation.create] and [Reservation.cancel] leave the
    customers as they are. *)
Theorem calls_write_their_own_files rt c d :
  match class_of c with
  | OfHotel =>
      customers_json (after rt c d) = customers_json d
      /\ reservations_json (after rt c d) = reservations_json d
  | OfCustomer =>
      hotels_json (after rt c d) = hotels_json d
      /\ reservations_json (after rt c d) = reservations_json d
  | OfReservation =>
      customers_json (after rt c d) = customers_json d
  end.
Proof. apply calls_frame. Qed.

(** ** Reservations are kept *)

Lemma reservations_of_saved_cases rt d rs0 rs rs' :
  reservations_of rt d = Ok rs0 ->
  reservations_of rt (set_reservations (save_file Reservation.to_dict rs) d) = Ok rs' ->
  rs' = rs0 \/ rs' = rs.
Proof.
  rewrite reservations_of_saved. intros H0.
  destruct (read_only (reservations_json d)).
  - rewrite H0. intros [= <-]. by left.
  - destruct (unreadable (reservations_json d)) eqn:Hr.
    + intros [= <-]. left. unfold reservations_of in H0. simpl in H0.
      rewrite load_file_unreadable in H0 by done. by injection H0.
    + intros [= <-]. by right.
Qed.

Lemma reservations_of_frame rt d d1 :
  reservations_json d1 = reservations_json d ->
  reservations_of rt d1 = reservations_of rt d.
Proof. unfold reservations_of. simpl. by intros ->. Qed.

(** X10. No call removes a reservation or rewrites its fields: a reservation
    of the store is still there after any call, unchanged, unless the call is
    [Reservation.cancel] of that very reservation, which changes its status
    to ['cancelled'] and nothing else.  A cancelled reservation is never
    changed again, and its id is never given to a new reservation. *)
Theorem reservations_are_kept rt c d rs rs' rid res :
  reservations_of rt d = Ok rs ->
  rs !! rid = Some res ->
  reservations_of rt (after rt c d) = Ok rs' ->
  (rs' !! rid = Some res
   \/ (c = ReservationCancel rid /\ rs' !! rid = Some (cancelled res)))
  /\ (Reservation.status res = PStr "cancelled" -> rs' !! rid = Some res).
Proof.
  intros Hrs Hrid Hrs'.
  assert (Hsame : reservations_json (after rt c d) = reservations_json d ->
                  rs' !! rid = Some res).
  { intros Heq. rewrite (reservations_of_frame _ _ _ Heq), Hrs in Hrs'. congruence. }
  pose proof (calls_frame rt c d) as Hframe.
  destruct c as [h n l r t|h|h kwargs|h rid0|h rid0|c n e p|c|rid0 cid hid ci co|rid0];
    simpl in Hframe; try (split; [left|intros _]; apply Hsame, Hframe).
  - simpl in *. rewrite reservation_create_run, Hrs in Hrs', Hsame.
    destruct (fst _); [|split; [left|intros _]; by apply Hsame].
    destruct (rs !! rid0) eqn:Hrid0; [split; [left|intros _]; by apply Hsame|].
    destruct (customers_of rt d) as [cs|]; [|split; [left|intros _]; by apply Hsame].
    destruct (cs !! cid); [|split; [left|intros _]; by apply Hsame].
    pose proof (proj2 (reserve_room_frame rt hid rid0 d)) as Hres.
    destruct (Hotel.reserve_room rt hid rid0 d) as [[[]|] d1]; simpl in *;
      try (split; [left|intros _]; by apply Hsame).
    assert (Hrs1 : reservations_of rt d1 = Ok rs)
      by by rewrite (reservations_of_frame _ _ _ Hres).
    destruct (reservations_of_saved_cases _ _ _ _ _ Hrs1 Hrs') as [->| ->].
    + by split; [left|].
    + assert (rid0 <> rid) by congruence.
      rewrite lookup_insert_ne by done. by split; [left|].
  - simpl in *. rewrite reservation_cancel_run, Hrs in Hrs', Hsame.
    destruct (rs !! rid0) as [res0|] eqn:Hrid0; [|split; [left|intros _]; by apply Hsame].
    destruct (eq_str "cancelled" (Reservation.status res0)) eqn:Hst;
      [split; [left|intros _]; by apply Hsame|].
    pose proof (proj2 (cancel_reservation_frame rt (Reservation.hotel_id res0) rid0 d))
      as Hres.
    destruct (Hotel.cancel_reservation _ _ _ _) as [[b|] d1]; simpl in *;
      [|split; [left|intros _]; by apply Hsame].
    assert (Hrs1 : reservations_of rt d1 = Ok rs)
      by by rewrite (reservations_of_frame _ _ _ Hres).
    destruct (reservations_of_saved_cases _ _ _ _ _ Hrs1 Hrs') as [->| ->].
    + by split; [left|].
    + destruct (decide (rid0 = rid)) as [->|Hne].
      * rewrite Hrid in Hrid0. injection Hrid0 as <-. rewrite lookup_insert_eq. split.
        -- by right.
        -- intros Hc. rewrite Hc in Hst. done.
      * rewrite lookup_insert_ne by done. by split; [left|].
Qed.

Lemma reservations_are_kept_witness :
  exists rs',
    reservations_of example_runtime
      (after example_runtime (ReservationCreate "R1" "C1" "H1" "2025-03-01" "2025-03-02")
         (stored {[ "H1" := grand ]} {[ "C1" := alice ]} {[ "R1" := stay "cancelled" ]}))
    = Ok rs'
    /\ rs' !! "R1" = Some (stay "cancelled").
Proof.
  eexists. split; [reflexivity|].
  destruct (reservations_are_kept example_runtime
              (ReservationCreate "R1" "C1" "H1" "2025-03-01" "2025-03-02")
              (stored {[ "H1" := grand ]} {[ "C1" := alice ]}
                 {[ "R1" := stay "cancelled" ]})
              {[ "R1" := stay "cancelled" ]} {[ "R1" := stay "cancelled" ]}
              "R1" (stay "cancelled")) as [_ Hkept]; [done | done | done |].
  by apply Hkept.
Defined.

(** ** Reservation.create, Reservation.get, Reservation.cancel *)

Lemma reservation_get_run rt rid d :
  fst (Reservation.get rt rid d) =
    match reservations_of rt d with
    | Ok rs => Ok (rs !! rid)
    | Raise e => Raise e
    end.
Proof.
  unfold Reservation.get, reservations_of, Reservation.load_all, bind. simpl.
  by destruct (load_file _ _).
Qed.

(** What a successful [create] leaves in the two files it writes. *)
Lemma create_effect rt rid cid hid ci co d date_in rs cs c hs hot :
  accessible (hotels_json d) ->
  accessible (reservations_json d) ->
  fst (Reservation.validate_dates ci co) = Some date_in ->
  reservations_of rt d = Ok rs ->
  rs !! rid = None ->
  customers_of rt d = Ok cs ->
  cs !! cid = Some c ->
  hotels_of rt d = Ok hs ->
  hs !! hid = Some hot ->
  0 < Hotel.available_rooms hot ->
  exists d',
    Reservation.create rt rid cid hid ci co d = (Ok (Some (booking rid cid hid ci co)), d')
    /\ reservations_of rt d' = Ok (<[rid := booking rid cid hid ci co]> rs)
    /\ hotels_of rt d' = Ok (<[hid := reserved hot rid]> hs)
    /\ fst (Reservation.get rt rid d') = Ok (Some (booking rid cid hid ci co))
    /\ fst (Hotel.get rt hid d') = Ok (Some (reserved hot rid))
    /\ accessible (hotels_json d')
    /\ accessible (reservations_json d')
    /\ customers_json d' = customers_json d.
Proof.
  intros Hah Har Hdates Hrs Hrid Hcs Hcid Hhs Hhid Hpos.
  rewrite reservation_create_run, Hdates, Hrs, Hrid, Hcs, Hcid.
  rewrite reserve_room_run, Hhs, Hhid.
  destruct (Z.leb_spec (Hotel.available_rooms hot) 0) as [?|_]; [lia|].
  eexists. split; [reflexivity|].
  assert (Hrs' : reservations_of rt
            (set_reservations
               (save_file Reservation.to_dict (<[rid := booking rid cid hid ci co]> rs))
               (set_hotels (save_file Hotel.to_dict (<[hid := reserved hot rid]> hs)) d))
          = Ok (<[rid := booking rid cid hid ci co]> rs))
    by by apply reservations_of_saved_accessible.
  assert (Hhs' : hotels_of rt
            (set_reservations
               (save_file Reservation.to_dict (<[rid := booking rid cid hid ci co]> rs))
               (set_hotels (save_file Hotel.to_dict (<[hid := reserved hot rid]> hs)) d))
          = Ok (<[hid := reserved hot rid]> hs))
    by by rewrite hotels_of_set_reservations, hotels_of_saved_accessible.
  split; [done|]. split; [done|].
  split; [by rewrite reservation_get_run, Hrs', lookup_insert_eq|].
  split; [by rewrite hotel_get_run, Hhs', lookup_insert_eq|].
  split; [by apply accessible_dump|]. split; [by apply accessible_dump|]. done.
Qed.

(** X11. A successful [Reservation.create]: with valid dates, a new
    reservation id, a customer of the store and a hotel with a room available,
    on files that take the writes, it returns the reservation with status
    ['active']; afterwards [Reservation.get] returns it, [Hotel.get] shows the
    hotel with one room fewer and the id last in its ledger, and every other
    reservation and hotel is as it was. *)
Theorem reservation_create_then_get rt rid cid hid ci co d date_in rs cs c hs hot :
  accessible (hotels_json d) ->
  accessible (reservations_json d) ->
  fst (Reservation.validate_dates ci co) = Some date_in ->
  reservations_of rt d = Ok rs ->
  rs !! rid = None ->
  customers_of rt d = Ok cs ->
  cs !! cid = Some c ->
  hotels_of rt d = Ok hs ->
  hs !! hid = Some hot ->
  0 < Hotel.available_rooms hot ->
  exists d',
    Reservation.create rt rid cid hid ci co d = (Ok (Some (booking rid cid hid ci co)), d')
    /\ reservations_of rt d' = Ok (<[rid := booking rid cid hid ci co]> rs)
    /\ hotels_of rt d' = Ok (<[hid := reserved hot rid]> hs)
    /\ fst (Reservation.get rt rid d') = Ok (Some (booking rid cid hid ci co))
    /\ fst (Hotel.get rt hid d') = Ok (Some (reserved hot rid))
    /\ accessible (hotels_json d')
    /\ accessible (reservations_json d')
    /\ customers_json d' = customers_json d.
Proof. apply create_effect. Qed.

Lemma reservation_create_then_get_witness :
  exists d',
    Reservation.create example_runtime "R2" "C1" "H1" "2025-02-01" "2025-02-03"
      (stored {[ "H1" := grand ]} {[ "C1" := alice ]} {[ "R1" := stay "active" ]})
    = (Ok (Some (booking "R2" "C1" "H1" "2025-02-01" "2025-02-03")), d')
    /\ fst (Reservation.get example_runtime "R2" d')
       = Ok (Some (booking "R2" "C1" "H1" "2025-02-01" "2025-02-03"))
    /\ fst (Hotel.get example_runtime "H1" d') = Ok (Some (reserved grand "R2")).
Proof.
  destruct (reservation_create_then_get example_runtime "R2" "C1" "H1"
              "2025-02-01" "2025-02-03"
              (stored {[ "H1" := grand ]} {[ "C1" := alice ]} {[ "R1" := stay "active" ]})
              {| year := 2025; month := 2; day := 1 |}
              {[ "R1" := stay "active" ]} {[ "C1" := alice ]} alice
              {[ "H1" := grand ]} grand)
    as (d' & Hrun & _ & _ & Hget & Hhotel & _);
    [by split | by split | done | done | done | done | done | done | done | done |].
  by exists d'.
Defined.

(** X12. Creating a reservation and cancelling it gives the room back: under
    the conditions of a successful [create], for a hotel with at most
    [total_rooms] rooms available whose ledger does not hold the id, [cancel]
    of the new reservation returns [True]; afterwards the hotels are exactly
    those loaded before the [create], and the reservation is stored with
    status ['cancelled']. *)
Theorem create_then_cancel rt rid cid hid ci co d date_in rs cs c hs hot :
  accessible (hotels_json d) ->
  accessible (reservations_json d) ->
  fst (Reservation.validate_dates ci co) = Some date_in ->
  reservations_of rt d = Ok rs ->
  rs !! rid = None ->
  customers_of rt d = Ok cs ->
  cs !! cid = Some c ->
  hotels_of rt d = Ok hs ->
  hs !! hid = Some hot ->
  0 < Hotel.available_rooms hot <= Hotel.total_rooms hot ->
  existsb (eq_str rid) (Hotel.reservations hot) = false ->
  exists d1 d2,
    Reservation.create rt rid cid hid ci co d = (Ok (Some (booking rid cid hid ci co)), d1)
    /\ Reservation.cancel rt rid d1 = (Ok true, d2)
    /\ hotels_of rt d2 = Ok hs
    /\ reservations_of rt d2 = Ok (<[rid := cancelled (booking rid cid hid ci co)]> rs).
Proof.
  intros Hah Har Hdates Hrs Hrid Hcs Hcid Hhs Hhid [Hpos Hle] Hnew.
  destruct (create_effect rt rid cid hid ci co d date_in rs cs c hs hot)
    as (d1 & Hrun & Hrs1 & Hhs1 & _ & _ & Hah1 & Har1 & _); try done.
  exists d1. eexists. split; [done|].
  rewrite reservation_cancel_run, Hrs1, lookup_insert_eq. simpl.
  rewrite cancel_reservation_run, Hhs1, lookup_insert_eq.
  assert (Hin : existsb (eq_str rid) (Hotel.reservations (reserved hot rid)) = true).
  { simpl. rewrite existsb_app. simpl. by rewrite String.eqb_refl, orb_true_r. }
  rewrite Hin. split; [reflexivity|]. split.
  - rewrite hotels_of_set_reservations, hotels_of_saved_accessible by done.
    by rewrite released_reserved, insert_insert_eq, insert_id.
  - rewrite reservations_of_saved_accessible by (by apply Har1).
    by rewrite insert_insert_eq.
Qed.

Lemma create_then_cancel_witness :
  exists d1 d2,
    Reservation.create example_runtime "R2" "C1" "H1" "2025-02-01" "2025-02-03"
      (stored {[ "H1" := grand ]} {[ "C1" := alice ]} {[ "R1" := stay "active" ]})
    = (Ok (Some (booking "R2" "C1" "H1" "2025-02-01" "2025-02-03")), d1)
    /\ Reservation.cancel example_runtime "R2" d1 = (Ok true, d2)
    /\ hotels_of example_runtime d2 = Ok {[ "H1" := grand ]}
    /\ reservations_of example_runtime d2
       = Ok (<["R2" := cancelled (booking "R2" "C1" "H1" "2025-02-01" "2025-02-03")]>
               {[ "R1" := stay "active" ]}).
Proof.
  apply (create_then_cancel example_runtime "R2" "C1" "H1" "2025-02-01" "2025-02-03"
           (stored {[ "H1" := grand ]} {[ "C1" := alice ]} {[ "R1" := stay "active" ]})
           {| year := 2025; month := 2; day := 1 |}
           {[ "R1" := stay "active" ]} {[ "C1" := alice ]} alice
           {[ "H1" := grand ]} grand);
    [by split | by split | done | done | done | done | done | done | done | by split | done].
Defined.

(** ** Customer.create, Customer.get, Customer.delete, Customer.modify *)

Lemma customer_get_run rt cid d :
  fst (Customer.get rt cid d) =
    match customers_of rt d with
    | Ok cs => Ok (cs !! cid)
    | Raise e => Raise e
    end.
Proof.
  unfold Customer.get, customers_of, Customer.load_all, bind. simpl.
  by destruct (load_file _ _).
Qed.

Lemma customers_of_saved_accessible rt cs d :
  accessible (customers_json d) ->
  customers_of rt (set_customers (save_file Customer.to_dict cs) d) = Ok cs.
Proof. intros [Hw Hr]. by rewrite customers_of_saved, Hw, Hr. Qed.

(** X13. [Customer.create] checks nothing but the id: for an id no customer
    has, on a customers file that takes the write, it stores the customer
    with each field turned into a string and [get] returns it afterwards, the
    other customers being as they were; for an id that exists it returns
    [None] and writes nothing. *)
Theorem customer_create_then_get rt cid n e p d cs :
  accessible (customers_json d) ->
  customers_of rt d = Ok cs ->
  (cs !! cid = None ->
   exists d',
     Customer.create rt cid n e p d = (Ok (Some (Customer.init rt (PStr cid) n e p)), d')
     /\ Customer.customer_id (Customer.init rt (PStr cid) n e p) = cid
     /\ fst (Customer.get rt cid d') = Ok (Some (Customer.init rt (PStr cid) n e p))
     /\ (forall k, k <> cid -> fst (Customer.get rt k d') = Ok (cs !! k))
     /\ hotels_json d' = hotels_json d
     /\ reservations_json d' = reservations_json d)
  /\ (forall c, cs !! cid = Some c -> Customer.create rt cid n e p d = (Ok None, d)).
Proof.
  intros Hacc Hcs.
  assert (Hrun : Customer.create rt cid n e p d =
            match cs !! cid with
            | Some _ => (Ok None, d)
            | None =>
                (Ok (Some (Customer.init rt (PStr cid) n e p)),
                 set_customers
                   (save_file Customer.to_dict
                      (<[cid := Customer.init rt (PStr cid) n e p]> cs)) d)
            end).
  { unfold customers_of in Hcs. simpl in Hcs.
    unfold Customer.create, Customer.load_all, bind. simpl. rewrite Hcs.
    by destruct (cs !! cid). }
  rewrite Hrun. split.
  - intros ->. eexists. split; [reflexivity|]. split; [done|].
    assert (Hload : customers_of rt
              (set_customers
                 (save_file Customer.to_dict
                    (<[cid := Customer.init rt (PStr cid) n e p]> cs)) d)
            = Ok (<[cid := Customer.init rt (PStr cid) n e p]> cs))
      by by apply customers_of_saved_accessible.
    split; [by rewrite customer_get_run, Hload, lookup_insert_eq|].
    split; [|done]. intros k Hk. by rewrite customer_get_run, Hload, lookup_insert_ne.
  - by intros c ->.
Qed.

Lemma customer_create_then_get_witness :
  exists d',
    Customer.create example_runtime "C2" (PStr "Bob") (PStr "bob@example.com") (PStr "555")
      (stored ∅ {[ "C1" := alice ]} ∅)
    = (Ok (Some (Customer.init example_runtime (PStr "C2") (PStr "Bob")
                   (PStr "bob@example.com") (PStr "555"))), d')
    /\ fst (Customer.get example_runtime "C1" d') = Ok (Some alice).
Proof.
  destruct (customer_create_then_get example_runtime "C2" (PStr "Bob")
              (PStr "bob@example.com") (PStr "555")
              (stored ∅ {[ "C1" := alice ]} ∅) {[ "C1" := alice ]})
    as [Hnew _]; [by split | done |].
  destruct Hnew as (d' & Hrun & _ & _ & Hothers & _); [done|].
  exists d'. split; [done|]. by rewrite (Hothers "C1").
Defined.

(** X14. [Customer.delete] of a customer of the store, on a customers file
    that takes the write, returns [True]; afterwards [get] finds no such
    customer, the reservations of that customer are still stored, and a new
    [Reservation.create] for that customer returns [None] with the files as
    [delete] left them.  For an unknown id it returns [False] and writes
    nothing. *)
Theorem customer_delete_then_get rt cid d cs :
  accessible (customers_json d) ->
  customers_of rt d = Ok cs ->
  (forall c, cs !! cid = Some c ->
     exists d',
       Customer.delete rt cid d = (Ok true, d')
       /\ fst (Customer.get rt cid d') = Ok None
       /\ (forall k, k <> cid -> fst (Customer.get rt k d') = Ok (cs !! k))
       /\ reservations_json d' = reservations_json d
       /\ hotels_json d' = hotels_json d
       /\ (forall rid hid ci co,
             snd (Reservation.create rt rid cid hid ci co d') = d'
             /\ forall res, fst (Reservation.create rt rid cid hid ci co d') <> Ok (Some res)))
  /\ (cs !! cid = None -> Customer.delete rt cid d = (Ok false, d)).
Proof.
  intros Hacc Hcs.
  assert (Hrun : Customer.delete rt cid d =
            match cs !! cid with
            | None => (Ok false, d)
            | Some _ =>
                (Ok true, set_customers (save_file Customer.to_dict (delete cid cs)) d)
            end).
  { unfold customers_of in Hcs. simpl in Hcs.
    unfold Customer.delete, Customer.load_all, bind. simpl. rewrite Hcs.
    by destruct (cs !! cid). }
  rewrite Hrun. split; [|by intros ->].
  intros c ->. eexists. split; [reflexivity|].
  assert (Hload : customers_of rt
            (set_customers (save_file Customer.to_dict (delete cid cs)) d)
          = Ok (delete cid cs)) by by apply customers_of_saved_accessible.
  split; [by rewrite customer_get_run, Hload, lookup_delete_eq|].
  split; [intros k Hk; by rewrite customer_get_run, Hload, lookup_delete_ne|].
  split; [done|]. split; [done|].
  intros rid hid ci co. rewrite reservation_create_run.
  destruct (fst _); [|done].
  destruct (reservations_of rt _) as [rs|]; [|done].
  destruct (rs !! rid); [done|].
  by rewrite Hload, lookup_delete_eq.
Qed.

Lemma customer_delete_then_get_witness :
  exists d',
    Customer.delete example_runtime "C1"
      (stored {[ "H1" := grand ]} {[ "C1" := alice ]} {[ "R1" := stay "active" ]})
    = (Ok true, d')
    /\ fst (Customer.get example_runtime "C1" d') = Ok None
    /\ fst (Reservation.get example_runtime "R1" d') = Ok (Some (stay "active"))
    /\ fst (Reservation.create example_runtime "R2" "C1" "H1" "2025-02-01" "2025-02-03" d')
       = Ok None.
Proof.
  destruct (customer_delete_then_get example_runtime "C1"
              (stored {[ "H1" := grand ]} {[ "C1" := alice ]} {[ "R1" := stay "active" ]})
              {[ "C1" := alice ]}) as [Hdel _]; [by split | done |].
  destruct (Hdel alice) as (d' & Hrun & Hget & _ & Hres & Hhot & _); [done|].
  exists d'. split; [done|]. split; [done|].
  injection Hrun as <-. by split.
Defined.








(** ** Writes that do not take place *)

Lemma active_count_booked rs rid cid hid ci co :
  rs !! rid = None ->
  active_count (<[rid := booking rid cid hid ci co]> rs) hid = active_count rs hid + 1.
Proof.
  intros Hrid. rewrite active_count_insert, delete_id by done.
  by rewrite decide_True.
Qed.

(** X16. [Reservation.create] does not notice a hotels file that refuses the
    write: under the conditions of a successful [create], with a hotels file
    that can be read but not written, it still returns the reservation and
    stores it with status ['active'], while the hotels file is left as it
    was, so that the hotel has as many rooms available as before; a hotel
    whose rooms were in balance with its active reservations no longer is. *)
Theorem create_ignores_failed_hotel_write rt rid cid hid ci co d date_in rs cs c hs hot :
  read_only (hotels_json d) = true ->
  accessible (reservations_json d) ->
  fst (Reservation.validate_dates ci co) = Some date_in ->
  reservations_of rt d = Ok rs ->
  rs !! rid = None ->
  customers_of rt d = Ok cs ->
  cs !! cid = Some c ->
  hotels_of rt d = Ok hs ->
  hs !! hid = Some hot ->
  0 < Hotel.available_rooms hot ->
  exists d',
    Reservation.create rt rid cid hid ci co d = (Ok (Some (booking rid cid hid ci co)), d')
    /\ hotels_json d' = hotels_json d
    /\ fst (Reservation.get rt rid d') = Ok (Some (booking rid cid hid ci co))
    /\ fst (Hotel.get rt hid d') = Ok (Some hot)
    /\ (balanced rt d hid -> ~ balanced rt d' hid).
Proof.
  intros Hw Har Hdates Hrs Hrid Hcs Hcid Hhs Hhid Hpos.
  rewrite reservation_create_run, Hdates, Hrs, Hrid, Hcs, Hcid.
  rewrite reserve_room_run, Hhs, Hhid.
  destruct (Z.leb_spec (Hotel.available_rooms hot) 0) as [?|_]; [lia|].
  eexists. split; [reflexivity|].
  assert (Hfile : save_file Hotel.to_dict (<[hid := reserved hot rid]> hs) (hotels_json d)
                  = hotels_json d).
  { unfold save_file, dump. by rewrite Hw. }
  assert (Hrs' : reservations_of rt
            (set_reservations
               (save_file Reservation.to_dict (<[rid := booking rid cid hid ci co]> rs))
               (set_hotels (save_file Hotel.to_dict (<[hid := reserved hot rid]> hs)) d))
          = Ok (<[rid := booking rid cid hid ci co]> rs))
    by by apply reservations_of_saved_accessible.
  assert (Hhs' : hotels_of rt
            (set_reservations
               (save_file Reservation.to_dict (<[rid := booking rid cid hid ci co]> rs))
               (set_hotels (save_file Hotel.to_dict (<[hid := reserved hot rid]> hs)) d))
          = Ok hs)
    by by rewrite hotels_of_set_reservations, hotels_of_saved, Hw.
  split; [done|].
  split; [by rewrite reservation_get_run, Hrs', lookup_insert_eq|].
  split; [by rewrite hotel_get_run, Hhs', Hhid|].
  intros (hs0 & rs0 & Hhs0 & Hrs0 & Hbal) (hs1 & rs1 & Hhs1 & Hrs1 & Hbal').
  rewrite Hhs in Hhs0. rewrite Hrs in Hrs0. rewrite Hhs' in Hhs1. rewrite Hrs' in Hrs1.
  simplify_eq. specialize (Hbal _ Hhid). specialize (Hbal' _ Hhid).
  rewrite active_count_booked in Hbal' by done. lia.
Qed.

Lemma create_ignores_failed_hotel_write_witness :
  exists d',
    Reservation.create example_runtime "R2" "C1" "H1" "2025-02-01" "2025-02-03"
      (set_hotels locked
         (stored {[ "H1" := grand ]} {[ "C1" := alice ]} {[ "R1" := stay "active" ]}))
    = (Ok (Some (booking "R2" "C1" "H1" "2025-02-01" "2025-02-03")), d')
    /\ fst (Reservation.get example_runtime "R2" d')
       = Ok (Some (booking "R2" "C1" "H1" "2025-02-01" "2025-02-03"))
    /\ fst (Hotel.get example_runtime "H1" d') = Ok (Some grand).
Proof.
  destruct (create_ignores_failed_hotel_write example_runtime "R2" "C1" "H1"
              "2025-02-01" "2025-02-03"
              (set_hotels locked
                 (stored {[ "H1" := grand ]} {[ "C1" := alice ]} {[ "R1" := stay "active" ]}))
              {| year := 2025; month := 2; day := 1 |}
              {[ "R1" := stay "active" ]} {[ "C1" := alice ]} alice
              {[ "H1" := grand ]} grand)
    as (d' & Hrun & _ & Hget & Hhotel & _);
    [done | by split | done | done | done | done | done | done | done | done |].
  by exists d'.
Defined.

(** X17. [Reservation.create] does not notice a reservations file that
    refuses the write either: under the conditions of a successful [create],
    with a reservations file that can be read but not written, it returns a
    reservation that [Reservation.get] does not find afterwards, while the
    hotel has given a room away and lists the id in its ledger; a hotel whose
    rooms were in balance with its active reservations no longer is. *)
Theorem create_ignores_failed_reservation_write
    rt rid cid hid ci co d date_in rs cs c hs hot :
  accessible (hotels_json d) ->
  read_only (reservations_json d) = true ->
  fst (Reservation.validate_dates ci co) = Some date_in ->
  reservations_of rt d = Ok rs ->
  rs !! rid = None ->
  customers_of rt d = Ok cs ->
  cs !! cid = Some c ->
  hotels_of rt d = Ok hs ->
  hs !! hid = Some hot ->
  0 < Hotel.available_rooms hot ->
  exists d',
    Reservation.create rt rid cid hid ci co d = (Ok (Some (booking rid cid hid ci co)), d')
    /\ reservations_json d' = reservations_json d
    /\ fst (Reservation.get rt rid d') = Ok None
    /\ fst (Hotel.get rt hid d') = Ok (Some (reserved hot rid))
    /\ (balanced rt d hid -> ~ balanced rt d' hid).
Proof.
  intros Hah Hw Hdates Hrs Hrid Hcs Hcid Hhs Hhid Hpos.
  rewrite reservation_create_run, Hdates, Hrs, Hrid, Hcs, Hcid.
  rewrite reserve_room_run, Hhs, Hhid.
  destruct (Z.leb_spec (Hotel.available_rooms hot) 0) as [?|_]; [lia|].
  eexists. split; [reflexivity|].
  assert (Hfile : save_file Reservation.to_dict (<[rid := booking rid cid hid ci co]> rs)
                    (reservations_json d)
                  = reservations_json d).
  { unfold save_file, dump. by rewrite Hw. }
  assert (Hrs' : reservations_of rt
            (set_reservations
               (save_file Reservation.to_dict (<[rid := booking rid cid hid ci co]> rs))
               (set_hotels (save_file Hotel.to_dict (<[hid := reserved hot rid]> hs)) d))
          = Ok rs).
  { rewrite reservations_of_saved. simpl. by rewrite Hw, reservations_of_set_hotels. }
  assert (Hhs' : hotels_of rt
            (set_reservations
               (save_file Reservation.to_dict (<[rid := booking rid cid hid ci co]> rs))
               (set_hotels (save_file Hotel.to_dict (<[hid := reserved hot rid]> hs)) d))
          = Ok (<[hid := reserved hot rid]> hs))
    by by rewrite hotels_of_set_reservations, hotels_of_saved_accessible.
  split; [done|].
  split; [by rewrite reservation_get_run, Hrs', Hrid|].
  split; [by rewrite hotel_get_run, Hhs', lookup_insert_eq|].
  intros (hs0 & rs0 & Hhs0 & Hrs0 & Hbal) (hs1 & rs1 & Hhs1 & Hrs1 & Hbal').
  rewrite Hhs in Hhs0. rewrite Hrs in Hrs0. rewrite Hhs' in Hhs1. rewrite Hrs' in Hrs1.
  simplify_eq. specialize (Hbal _ Hhid).
  specialize (Hbal' (reserved hot rid) (lookup_insert_eq _ _ _)).
  unfold reserved in Hbal'. simpl in Hbal'. lia.
Qed.

Lemma create_ignores_failed_reservation_write_witness :
  exists d',
    Reservation.create example_runtime "R2" "C1" "H1" "2025-02-01" "2025-02-03"
      (set_reservations locked
         (stored {[ "H1" := grand ]} {[ "C1" := alice ]} {[ "R1" := stay "active" ]}))
    = (Ok (Some (booking "R2" "C1" "H1" "2025-02-01" "2025-02-03")), d')
    /\ fst (Reservation.get example_runtime "R2" d') = Ok None
    /\ fst (Hotel.get example_runtime "H1" d') = Ok (Some (reserved grand "R2")).
Proof.
  destruct (create_ignores_failed_reservation_write example_runtime "R2" "C1" "H1"
              "2025-02-01" "2025-02-03"
              (set_reservations locked
                 (stored {[ "H1" := grand ]} {[ "C1" := alice ]} {[ "R1" := stay "active" ]}))
              {| year := 2025; month := 2; day := 1 |}
              {[ "R1" := stay "active" ]} {[ "C1" := alice ]} alice
              {[ "H1" := grand ]} grand)
    as (d' & Hrun & _ & Hget & Hhotel & _);
    [by split | done | done | done | done | done | done | done | done | done |].
  by exists d'.
Defined.
